(** * Mythweaver rules engine: dice, checks, derived stats, creation validation

    A shallow embedding of [app/services/rules_engine.py].  Python integers
    are unbounded, so every [int] is a [Z] and [//] with a positive divisor
    is [Z.div] (both round toward minus infinity).  The module-level random
    generator becomes an explicit state threaded through a small state
    monad; exceptions become a sum type threaded through an error monad;
    dictionaries with string keys are [gmap string _]. *)

From Stdlib Require Import ZArith Lia.
From stdpp Require Import base gmap strings list fin_maps pretty.

Open Scope Z_scope.

(** ** Enumerations and the result record *)

(** [class EdgeType(Enum)] *)
Inductive EdgeType : Type :=
  | NONE
  | ADVANTAGE
  | DISADVANTAGE.

(** [class Outcome(Enum)] *)
Inductive Outcome : Type :=
  | FAILURE
  | NEAR_MISS
  | SUCCESS
  | STRONG_SUCCESS.

(** [@dataclass class CheckResult] *)
Record CheckResult : Type := mkCheckResult {
  total : Z;
  difficulty : Z;
  margin : Z;
  outcome : Outcome;
  dice_rolls : list Z;
  attribute_bonus : Z;
  skill_rank : Z;
  situational_modifier : Z;
  edge_type : EdgeType
}.

(** ** The random source

    [random.randint] draws from a hidden generator.  The generator is an
    arbitrary infinite sequence of raw integers together with the number of
    draws made so far; [randint a b] maps the next raw integer into the
    closed range [a..b] and advances the count by one. *)

Record RandomState : Type := mkRandomState {
  entropy : nat → Z;
  drawn : nat
}.

Definition Rand (A : Type) : Type := RandomState → A * RandomState.

#[global] Instance Rand_ret : MRet Rand := λ A (a : A) g, (a, g).

#[global] Instance Rand_bind : MBind Rand :=
  λ A B (k : A → Rand B) (m : Rand A) g, let (a, g') := m g in k a g'.

Definition randint (a b : Z) : Rand Z :=
  λ g, (a + entropy g (drawn g) `mod` (b - a + 1),
        {| entropy := entropy g; drawn := S (drawn g) |}).

(** [def roll_d12() -> int] *)
Definition roll_d12 : Rand Z := randint 1 12.

(** ** Derived bonus calculators *)

(** [def calculate_attribute_bonus(score)]: [score // 2] *)
Definition calculate_attribute_bonus (score : Z) : Z := score `div` 2.

(** [def calculate_skill_rank(score)]: [score // 4] *)
Definition calculate_skill_rank (score : Z) : Z := score `div` 4.

(** ** Check resolution *)

(** [def perform_check(attribute_score, skill_score, difficulty,
                       edge=EdgeType.NONE, situational_modifier=0)] *)
Definition perform_check (attribute_score skill_score difficulty : Z)
    (edge : EdgeType) (situational_modifier : Z) : Rand CheckResult :=
  let attribute_bonus := calculate_attribute_bonus attribute_score in
  let skill_rank := calculate_skill_rank skill_score in
  '(dice_rolls, dice_result) ←
    match edge with
    | ADVANTAGE =>
        roll1 ← roll_d12;
        roll2 ← roll_d12;
        mret ([roll1; roll2], Z.max roll1 roll2)
    | DISADVANTAGE =>
        roll1 ← roll_d12;
        roll2 ← roll_d12;
        mret ([roll1; roll2], Z.min roll1 roll2)
    | NONE =>
        dice_result ← roll_d12;
        mret ([dice_result], dice_result)
    end;
  let total := dice_result + attribute_bonus + skill_rank + situational_modifier in
  let margin := total - difficulty in
  let outcome :=
    if margin >=? 5 then STRONG_SUCCESS
    else if margin >=? 0 then SUCCESS
    else if margin >=? -2 then NEAR_MISS
    else FAILURE in
  mret {| total := total;
          difficulty := difficulty;
          margin := margin;
          outcome := outcome;
          dice_rolls := dice_rolls;
          attribute_bonus := attribute_bonus;
          skill_rank := skill_rank;
          situational_modifier := situational_modifier;
          edge_type := edge |}.

(** ** Derived stats *)

(** [def calculate_max_hp(might_score)] *)
Definition calculate_max_hp (might_score : Z) : Z := 8 + (might_score * 2).

(** [def calculate_max_focus(wits_score, presence_score)] *)
Definition calculate_max_focus (wits_score presence_score : Z) : Z :=
  4 + wits_score + presence_score.

(** [def calculate_inventory_slots(might_score)] *)
Definition calculate_inventory_slots (might_score : Z) : Z := 8 + might_score.

(** ** Reading a check off the generator state *)

(** The value of the [n]-th call of [roll_d12] counted from generator state
    [g] (call 0 is the next one). *)
Definition nth_roll (g : RandomState) (n : nat) : Z :=
  1 + entropy g (drawn g + n)%nat `mod` 12.

(** The die value that enters the total, as the edge rule picks it from the
    first two upcoming rolls. *)
Definition dice_result_used (edge : EdgeType) (g : RandomState) : Z :=
  match edge with
  | ADVANTAGE => Z.max (nth_roll g 0) (nth_roll g 1)
  | DISADVANTAGE => Z.min (nth_roll g 0) (nth_roll g 1)
  | NONE => nth_roll g 0
  end.

(** The tier table of the check resolver, read as a function of the margin. *)
Definition tier_of_margin (m : Z) : Outcome :=
  if decide (5 ≤ m) then STRONG_SUCCESS
  else if decide (0 ≤ m) then SUCCESS
  else if decide (-2 ≤ m) then NEAR_MISS
  else FAILURE.

(** A generator whose upcoming rolls show the listed faces (and 1 after
    them), as a test that patches [roll_d12] with fixed values would. *)
Definition fixed_rolls (faces : list Z) : RandomState :=
  {| entropy := λ n, nth n faces 1 - 1; drawn := 0 |}.

(** The rolls a check records, and how many it draws. *)
Definition rolls_recorded (edge : EdgeType) (g : RandomState) : list Z :=
  match edge with
  | NONE => [nth_roll g 0]
  | _ => [nth_roll g 0; nth_roll g 1]
  end.

Definition rolls_consumed (edge : EdgeType) : nat :=
  match edge with NONE => 1 | _ => 2 end.

(** ** Python values and exceptions

    The attribute map of the quick validator is read inside a blanket
    [try/except], so its values are dynamically typed here: an [int], a
    [str], [None] or a nested [dict].  ([bool] and [float] values are not
    represented.) *)

#[local] Set Warnings "-register-all".

Inductive pyval : Type :=
  | PInt (n : Z)
  | PStr (s : string)
  | PNone
  | PDict (items : list (string * pyval)).

Inductive exn : Type :=
  | ValidationError (msg : string)
  | KeyError (key : string)
  | TypeError.

Inductive result (A : Type) : Type :=
  | Returns (a : A)
  | Raises (e : exn).

Arguments Returns {A} a.
Arguments Raises {A} e.

#[global] Instance result_ret : MRet result := @Returns.

#[global] Instance result_bind : MBind result :=
  λ A B (k : A → result B) (m : result A),
    match m with
    | Returns a => k a
    | Raises e => Raises e
    end.

(** [key in d] *)
Definition py_in {V : Type} (key : string) (d : gmap string V) : bool :=
  match d !! key with
  | Some _ => true
  | None => false
  end.

(** [d[key]] *)
Definition getitem {V : Type} (d : gmap string V) (key : string) : result V :=
  match d !! key with
  | Some v => Returns v
  | None => Raises (KeyError key)
  end.

(** [for x in xs: body(x)], where the body may raise *)
Fixpoint for_each {A : Type} (xs : list A) (body : A → result unit) : result unit :=
  match xs with
  | [] => Returns tt
  | x :: xs' => _ ← body x; for_each xs' body
  end.

(** [acc + v] for an [int] accumulator: only an [int] can be added *)
Definition py_add (acc : Z) (v : pyval) : result Z :=
  match v with
  | PInt n => Returns (acc + n)
  | _ => Raises TypeError
  end.

(** [acc + v] when [v] is statically an [int] *)
Definition int_add (acc v : Z) : result Z := Returns (acc + v).

(** [sum(f(x) for x in xs)]: the generator is consumed lazily, so each
    element is produced and added before the next one is produced. *)
Fixpoint py_sum {A V : Type} (add : Z → V → result Z) (f : A → result V)
    (xs : list A) (acc : Z) : result Z :=
  match xs with
  | [] => Returns acc
  | x :: xs' => v ← f x; acc' ← add acc v; py_sum add f xs' acc'
  end.

(** [lo <= v <= hi] for integer literals [lo], [hi]: the chained comparison
    is [lo <= v and v <= hi]; comparing an [int] with a non-[int] raises. *)
Definition py_between (lo : Z) (v : pyval) (hi : Z) : result bool :=
  match v with
  | PInt n => Returns ((lo <=? n) && (n <=? hi))
  | _ => Raises TypeError
  end.

(** [needle in hay] on strings *)
Fixpoint starts_with (needle hay : string) : bool :=
  match needle, hay with
  | EmptyString, _ => true
  | String c n', String d h' => Ascii.eqb c d && starts_with n' h'
  | String _ _, EmptyString => false
  end.

Fixpoint str_contains (needle hay : string) : bool :=
  starts_with needle hay ||
  match hay with
  | EmptyString => false
  | String _ h' => str_contains needle h'
  end.

(** ** Character creation validation *)

Definition required_attrs : list string :=
  ["might"; "agility"; "wits"; "presence"].

Definition required_skills : list string :=
  ["Blade"; "Bow"; "Brawl"; "Sneak"; "Survival";
   "Lore"; "Craft"; "Influence"; "Insight"; "Channel"].

(** [def validate_character_creation(attributes, skills, talents, path_id)],
    at its annotated types [Dict[str, int]], [Dict[str, int]], [List[Dict]],
    [str]. *)
Definition validate_character_creation (attributes skills : gmap string Z)
    (talents : list (gmap string pyval)) (path_id : string) : result bool :=
  _ ← for_each required_attrs (λ attr,
        if negb (py_in attr attributes) then
          Raises (ValidationError ("Missing attribute: " +:+ attr))
        else
          score ← getitem attributes attr;
          if negb ((0 <=? score) && (score <=? 20)) then
            Raises (ValidationError
              ("Attribute " +:+ attr +:+ " must be 0-20, got " +:+ pretty score))
          else Returns tt);
  attr_total ← py_sum int_add (getitem attributes) required_attrs 0;
  if negb (attr_total =? 15) then
    Raises (ValidationError
      ("Attributes must sum to 15, got " +:+ pretty attr_total))
  else
  _ ← for_each required_skills (λ skill,
        if negb (py_in skill skills) then
          Raises (ValidationError ("Missing skill: " +:+ skill))
        else
          score ← getitem skills skill;
          if negb ((0 <=? score) && (score <=? 20)) then
            Raises (ValidationError
              ("Skill " +:+ skill +:+ " must be 0-20, got " +:+ pretty score))
          else Returns tt);
  let selected_skills :=
    (filter (λ item : string * Z, 0 < item.2) (map_to_list skills)).*1 in
  if negb (length selected_skills =? 3)%nat then
    Raises (ValidationError
      ("Must select exactly 3 starting skills, got "
       +:+ pretty (length selected_skills)))
  else
  if negb (length talents =? 2)%nat then
    Raises (ValidationError
      ("Must select exactly 2 starting talents, got "
       +:+ pretty (length talents)))
  else
  _ ← for_each talents (λ talent,
        if negb (py_in "name" talent) then
          Raises (ValidationError "Talent missing 'name' field")
        else Returns tt);
  Returns true.

(** The range loop of the quick validator, with its early [return False];
    running off the end of the list reaches the final [return True]. *)
Fixpoint allocation_range_loop (attributes : gmap string pyval)
    (attrs : list string) : result bool :=
  match attrs with
  | [] => Returns true
  | attr :: rest =>
      v ← getitem attributes attr;
      ok ← py_between 0 v 20;
      if negb ok then Returns false
      else allocation_range_loop attributes rest
  end.

(** The body of the [try] block of [validate_attribute_allocation]. *)
Definition validate_attribute_allocation_body
    (attributes : gmap string pyval) : result bool :=
  let required := ["might"; "agility"; "wits"; "presence"] in
  if negb (forallb (λ attr, py_in attr attributes) required) then
    Returns false
  else
    total ← py_sum py_add (getitem attributes) required 0;
    if negb (total =? 15) then Returns false
    else allocation_range_loop attributes required.

(** [def validate_attribute_allocation(attributes)]: the bare [except]
    turns every exception of the body into [False]. *)
Definition validate_attribute_allocation (attributes : gmap string pyval) : bool :=
  match validate_attribute_allocation_body attributes with
  | Returns b => b
  | Raises _ => false
  end.

(** ** Test fixtures of the repository ([tests/test_rules_engine.py]) *)

Definition valid_attrs : gmap string Z :=
  {[ "might" := 6; "agility" := 4; "wits" := 3; "presence" := 2 ]}.

Definition valid_skills : gmap string Z :=
  {[ "Blade" := 8; "Bow" := 0; "Brawl" := 0; "Sneak" := 4; "Survival" := 0;
     "Lore" := 0; "Craft" := 0; "Influence" := 0; "Insight" := 4;
     "Channel" := 0 ]}.

Definition valid_talents : list (gmap string pyval) :=
  [ {[ "name" := PStr "Riposte";
       "requirements" := PDict [("path", PStr "blade")] ]};
    {[ "name" := PStr "Shield Ally";
       "requirements" := PDict [("path", PStr "blade")] ]} ].

(** [invalid_attrs] of the demo and of [test_invalid_attribute_sum]: every
    score is in range and the sum is 17. *)
Definition invalid_attrs : gmap string Z :=
  {[ "might" := 8; "agility" := 4; "wits" := 3; "presence" := 2 ]}.

(** Further candidates used below: a might of 22, and skills maps that carry
    names outside the canonical ten. *)
Definition might_22_attrs : gmap string Z :=
  {[ "might" := 22; "agility" := 4; "wits" := 3; "presence" := 2 ]}.

Definition skills_negative_extra : gmap string Z :=
  <["Magic" := -1]> valid_skills.

Definition skills_positive_extra : gmap string Z :=
  <["Magic" := 99]> valid_skills.


(** ** The rules of character creation, as predicates

    The attribute loop and the skill loop of [validate_character_creation]
    have the same body up to the two message prefixes; [score_check] names
    that body so that both loops can share their lemmas. *)

Definition score_check (missing label : string) (d : gmap string Z)
    (key : string) : result unit :=
  if negb (py_in key d) then Raises (ValidationError (missing +:+ key))
  else
    score ← getitem d key;
    if negb ((0 <=? score) && (score <=? 20)) then
      Raises (ValidationError
        (label +:+ key +:+ " must be 0-20, got " +:+ pretty score))
    else Returns tt.

Definition talent_check (talent : gmap string pyval) : result unit :=
  if negb (py_in "name" talent) then
    Raises (ValidationError "Talent missing 'name' field")
  else Returns tt.

(** A key is present with a score in [0, 20]. *)
Definition score_ok (d : gmap string Z) (key : string) : Prop :=
  match d !! key with
  | Some v => 0 ≤ v ≤ 20
  | None => False
  end.

#[global] Instance score_ok_dec d key : Decision (score_ok d key).
Proof. unfold score_ok. destruct (d !! key); apply _. Defined.

(** Rule 1: the four attributes are present and in range. *)
Definition attrs_in_range (attributes : gmap string Z) : Prop :=
  Forall (score_ok attributes) required_attrs.

(** Rule 2 compares this sum with 15. *)
Definition attr_sum (attributes : gmap string Z) : Z :=
  attributes !!! "might" + attributes !!! "agility"
  + attributes !!! "wits" + attributes !!! "presence".

(** Rule 3: the ten canonical skills are present and in range. *)
Definition skills_in_range (skills : gmap string Z) : Prop :=
  Forall (score_ok skills) required_skills.

(** Rule 4 as the code counts: entries of the whole skills map, canonical
    or not, whose score is positive. *)
Definition selected_count (skills : gmap string Z) : nat :=
  length (filter (λ item : string * Z, 0 < item.2) (map_to_list skills)).

(** Rule 6: every talent has a [name] key. *)
Definition talents_named (talents : list (gmap string pyval)) : Prop :=
  Forall (λ talent : gmap string pyval, is_Some (talent !! "name")) talents.

(** Rule 4 as the specification words it, in its two readings: the number
    of canonical skills with a non-zero score, and the number of entries of
    the skills map with a non-zero score. *)
Definition nonzero_canonical (skills : gmap string Z) : nat :=
  length (filter (λ skill : string, skills !!! skill ≠ 0) required_skills).


(** The quick validator's notion of a valid allocation: the four attributes
    are integers in [0, 20] that sum to 15. *)
Definition allocation_valid (attributes : gmap string pyval) : Prop :=
  ∃ a b c d : Z,
    attributes !! "might" = Some (PInt a) ∧
    attributes !! "agility" = Some (PInt b) ∧
    attributes !! "wits" = Some (PInt c) ∧
    attributes !! "presence" = Some (PInt d) ∧
    (0 ≤ a ≤ 20 ∧ 0 ≤ b ≤ 20 ∧ 0 ≤ c ≤ 20 ∧ 0 ≤ d ≤ 20) ∧
    a + b + c + d = 15.

(** ** Ordering the outcome tiers

    The four tiers from worst to best, as the comments of [Outcome] order
    them (missed by 3 or more, missed by 1 or 2, met, exceeded by 5). *)
Definition outcome_rank (o : Outcome) : Z :=
  match o with
  | FAILURE => 0
  | NEAR_MISS => 1
  | SUCCESS => 2
  | STRONG_SUCCESS => 3
  end.

(** ** The callers of the rules engine

    The request schemas ([app/schemas]), the character model
    ([app/models/character.py]) and the campaign service
    ([app/services/campaign_service.py]) raise exceptions of their own. *)

Inductive service_exn : Type :=
  | ValueError (msg : string)
  | CampaignCreationError (msg : string)
  | IndexError.

Inductive attempt (A : Type) : Type :=
  | Finished (a : A)
  | Failed (e : service_exn).

Arguments Finished {A} a.
Arguments Failed {A} e.

#[global] Instance attempt_ret : MRet attempt := @Finished.

#[global] Instance attempt_bind : MBind attempt :=
  λ A B (k : A → attempt B) (m : attempt A),
    match m with
    | Finished a => k a
    | Failed e => Failed e
    end.

(** [class AttributeScores(BaseModel)] *)
Module AttributeScores.

Record t : Type := mk {
  might : Z;
  agility : Z;
  wits : Z;
  presence : Z
}.

(** [def validate_attribute_range(cls, v)] *)
Definition validate_attribute_range (v : Z) : attempt Z :=
  if negb ((0 <=? v) && (v <=? 20)) then
    Failed (ValueError "Attribute must be between 0 and 20")
  else Finished v.

(** [def total(self)] *)
Definition total (self : t) : Z :=
  might self + agility self + wits self + presence self.

(** The declared constraints [Field(..., ge=0, le=20)]. *)
Definition field_constraints (self : t) : Prop :=
  0 ≤ might self ≤ 20 ∧ 0 ≤ agility self ≤ 20 ∧
  0 ≤ wits self ≤ 20 ∧ 0 ≤ presence self ≤ 20.

End AttributeScores.

(** [class SkillsDict(BaseModel)] *)
Module SkillsDict.

Record t : Type := mk {
  blade : Z;
  bow : Z;
  brawl : Z;
  sneak : Z;
  survival : Z;
  lore : Z;
  craft : Z;
  influence : Z;
  insight : Z;
  channel : Z
}.

(** [def model_dump(self)], also what [dict(skills)] builds: the fields by
    name. *)
Definition model_dump (self : t) : gmap string Z :=
  {[ "blade" := blade self; "bow" := bow self; "brawl" := brawl self;
     "sneak" := sneak self; "survival" := survival self; "lore" := lore self;
     "craft" := craft self; "influence" := influence self;
     "insight" := insight self; "channel" := channel self ]}.

(** The declared constraints [Field(default=0, ge=0, le=20)]. *)
Definition field_constraints (self : t) : Prop :=
  Forall (λ score, 0 ≤ score ≤ 20)
    [blade self; bow self; brawl self; sneak self; survival self;
     lore self; craft self; influence self; insight self; channel self].

End SkillsDict.

(** [class CharacterCreate(BaseModel)] *)
Module CharacterCreate.

Record t : Type := mk {
  name : string;
  origin_id : string;
  path_id : string;
  attributes : AttributeScores.t;
  skills : SkillsDict.t;
  talent_ids : list string
}.

(** [def validate_attribute_total(cls, v)] *)
Definition validate_attribute_total (v : AttributeScores.t) :
    attempt AttributeScores.t :=
  let total := AttributeScores.total v in
  if negb (total =? 15) then
    Failed (ValueError ("Attributes must sum to 15, got " +:+ pretty total))
  else Finished v.

(** [def validate_starting_skills(cls, v)] *)
Definition validate_starting_skills (v : SkillsDict.t) : attempt SkillsDict.t :=
  let selected_skills :=
    (filter (λ item : string * Z, 0 < item.2)
       (map_to_list (SkillsDict.model_dump v))).*1 in
  if negb (length selected_skills =? 3)%nat then
    Failed (ValueError
      ("Must select exactly 3 starting skills, got "
       +:+ pretty (length selected_skills)))
  else Finished v.

End CharacterCreate.

(** [class CampaignSettings(BaseModel)] and [class CreateCampaignRequest] *)
Module CreateCampaignRequest.

Record CampaignSettings : Type := mkSettings {
  tone : string;
  content_limits : list string;
  difficulty : string
}.

Record t : Type := mk {
  campaign_name : string;
  template_id : string;
  settings : CampaignSettings;
  character : CharacterCreate.t
}.

End CreateCampaignRequest.

(** [class Character(Base)]: the columns that hold game state, and the
    properties and method computed from them.  (The identifiers, timestamps
    and the talent, bond and inventory lists are not read by any of them.) *)
Module Character.

Record t : Type := mk {
  name : string;
  origin : string;
  path : string;
  might_score : Z;
  agility_score : Z;
  wits_score : Z;
  presence_score : Z;
  current_hp : Z;
  max_hp : Z;
  current_focus : Z;
  max_focus : Z;
  supplies : Z;
  skills : gmap string Z
}.

(** [def effective_might_bonus(self)] and its three siblings *)
Definition effective_might_bonus (self : t) : Z := might_score self `div` 2.
Definition effective_agility_bonus (self : t) : Z := agility_score self `div` 2.
Definition effective_wits_bonus (self : t) : Z := wits_score self `div` 2.
Definition effective_presence_bonus (self : t) : Z := presence_score self `div` 2.

(** [def get_skill_rank(self, skill_name)] *)
Definition get_skill_rank (self : t) (skill_name : string) : Z :=
  let skill_score := default 0 (skills self !! skill_name) in
  skill_score `div` 4.

(** [def inventory_slots(self)] *)
Definition inventory_slots (self : t) : Z := might_score self `div` 2.

End Character.

(** [sum(d.values())] over a dictionary of integers *)
Definition py_sum_values (d : gmap string Z) : Z :=
  foldl Z.add 0 (map_to_list d).*2.

(** [async def create_campaign(request, user_id, db)], up to the point where
    it touches the database: steps 1 to 3 (template check, the three checks
    on the character, the derived stats) and the [Character] that step 5
    constructs from them.  [validate_template] is the template service's
    function, taken as a parameter; the database session, the [Campaign] row
    and steps 6 to 8 are outside this model. *)
Definition create_campaign_character (validate_template : string → bool)
    (request : CreateCampaignRequest.t) : attempt Character.t :=
  if negb (validate_template (CreateCampaignRequest.template_id request)) then
    Failed (CampaignCreationError
      ("Invalid template_id: " +:+ CreateCampaignRequest.template_id request))
  else
  let character_data := CreateCampaignRequest.character request in
  let attributes := CharacterCreate.attributes character_data in
  let attributes_dict : gmap string Z :=
    {[ "might" := AttributeScores.might attributes;
       "agility" := AttributeScores.agility attributes;
       "wits" := AttributeScores.wits attributes;
       "presence" := AttributeScores.presence attributes ]} in
  let attr_sum := py_sum_values attributes_dict in
  if negb (attr_sum =? 15) then
    Failed (CampaignCreationError
      ("Attributes must sum to 15, got " +:+ pretty attr_sum))
  else
  let skills_dict := SkillsDict.model_dump (CharacterCreate.skills character_data) in
  let selected_skills :=
    (filter (λ item : string * Z, 0 < item.2) (map_to_list skills_dict)).*1 in
  if negb (length selected_skills =? 3)%nat then
    Failed (CampaignCreationError
      ("Must select exactly 3 skills, got " +:+ pretty (length selected_skills)))
  else
  if negb (length (CharacterCreate.talent_ids character_data) =? 2)%nat then
    Failed (CampaignCreationError
      ("Must select exactly 2 talents, got "
       +:+ pretty (length (CharacterCreate.talent_ids character_data))))
  else
  let max_hp := calculate_max_hp (AttributeScores.might attributes) in
  let max_focus :=
    calculate_max_focus (AttributeScores.wits attributes)
      (AttributeScores.presence attributes) in
  let inventory_slots := calculate_inventory_slots (AttributeScores.might attributes) in
  Finished {|
    Character.name := CharacterCreate.name character_data;
    Character.origin := CharacterCreate.origin_id character_data;
    Character.path := CharacterCreate.path_id character_data;
    Character.might_score := AttributeScores.might attributes;
    Character.agility_score := AttributeScores.agility attributes;
    Character.wits_score := AttributeScores.wits attributes;
    Character.presence_score := AttributeScores.presence attributes;
    Character.current_hp := max_hp;
    Character.max_hp := max_hp;
    Character.current_focus := max_focus;
    Character.max_focus := max_focus;
    Character.supplies := 3;
    Character.skills := SkillsDict.model_dump (CharacterCreate.skills character_data)
  |}.

(** [class CreateCampaignResponse(BaseModel)], identifiers as strings *)
Module CreateCampaignResponse.

Record t : Type := mk {
  campaign_id : string;
  character_id : string;
  opening_narration : string;
  suggested_actions : list string
}.

End CreateCampaignResponse.

(** What one run of the [try] block of [create_campaign] (steps 4 to 8)
    comes to: a step raised [CampaignCreationError], a step raised another
    [Exception] e, of which the handler keeps [str(e)], or the block
    returned its response. *)
Inductive try_block_outcome : Type :=
  | BlockRaisedCreationError (message : string)
  | BlockRaised (message : string)
  | BlockReturned (response : CreateCampaignResponse.t).

(** [async def create_campaign(request, user_id, db)] as a whole.  The
    database session and the template service decide what the [try] block
    comes to; they are outside this model, so that outcome is the parameter
    [try_block], given the request and the values the [Character] of step 5
    is constructed from.  [except CampaignCreationError] re-raises the
    exception as it is, [except Exception as e] raises
    [CampaignCreationError("Failed to create campaign: ...")] in its place;
    [db.rollback()] in the two handlers is taken to return. *)
Definition create_campaign (validate_template : string → bool)
    (try_block : CreateCampaignRequest.t → Character.t → try_block_outcome)
    (request : CreateCampaignRequest.t) : attempt CreateCampaignResponse.t :=
  character ← create_campaign_character validate_template request;
  match try_block request character with
  | BlockRaisedCreationError message => Failed (CampaignCreationError message)
  | BlockRaised message =>
      Failed (CampaignCreationError ("Failed to create campaign: " +:+ message))
  | BlockReturned response => Finished response
  end.

(** The request of [test_valid_character_creation_with_schemas], in a
    campaign on the default template. *)
Definition kael_request : CreateCampaignRequest.t :=
  {| CreateCampaignRequest.campaign_name := "The Broken Kingdom";
     CreateCampaignRequest.template_id := "broken_kingdom";
     CreateCampaignRequest.settings :=
       {| CreateCampaignRequest.tone := "balanced";
          CreateCampaignRequest.content_limits := [];
          CreateCampaignRequest.difficulty := "normal" |};
     CreateCampaignRequest.character :=
       {| CharacterCreate.name := "Kael Ironblade";
          CharacterCreate.origin_id := "veteran";
          CharacterCreate.path_id := "blade";
          CharacterCreate.attributes := AttributeScores.mk 6 4 3 2;
          CharacterCreate.skills := SkillsDict.mk 8 0 0 4 0 0 0 0 4 0;
          CharacterCreate.talent_ids := ["riposte"; "shield_ally"] |} |}.

(** The character that [create_campaign] builds for [kael_request]. *)
Definition kael_character : Character.t :=
  {| Character.name := "Kael Ironblade";
     Character.origin := "veteran";
     Character.path := "blade";
     Character.might_score := 6;
     Character.agility_score := 4;
     Character.wits_score := 3;
     Character.presence_score := 2;
     Character.current_hp := 20;
     Character.max_hp := 20;
     Character.current_focus := 9;
     Character.max_focus := 9;
     Character.supplies := 3;
     Character.skills :=
       {[ "blade" := 8; "bow" := 0; "brawl" := 0; "sneak" := 4; "survival" := 0;
          "lore" := 0; "craft" := 0; "influence" := 0; "insight" := 4;
          "channel" := 0 ]} |}.

(** ** The D&D rules helper ([app/utils/dnd_rules.py]) *)


(** [class DnDRules] *)
Module DnDRules.

(** [self.ability_modifier_map] *)
Definition ability_modifier_map : gmap Z Z :=
  list_to_map
    [(1, -5); (2, -4); (3, -4); (4, -3); (5, -3); (6, -2); (7, -2); (8, -1);
     (9, -1); (10, 0); (11, 0); (12, 1); (13, 1); (14, 2); (15, 2); (16, 3);
     (17, 3); (18, 4); (19, 4); (20, 5)].

(** [def get_ability_modifier(self, ability_score)] *)
Definition get_ability_modifier (ability_score : Z) : Z :=
  default 0 (ability_modifier_map !! ability_score).

(** [def get_proficiency_bonus(self, level)] *)
Definition get_proficiency_bonus (level : Z) : Z :=
  if level >=? 17 then 6
  else if level >=? 13 then 5
  else if level >=? 9 then 4
  else if level >=? 5 then 3
  else 2.

(** The dictionary that [make_ability_check] returns. *)
Record AbilityCheck : Type := mkAbilityCheck {
  type : string;
  result : Z;
  modifier : Z;
  total : Z;
  dc : Z;
  success : bool;
  advantage : bool;
  disadvantage : bool
}.

(** [def make_ability_check(self, ability_score, proficiency_bonus=0,
        difficulty_class=15, advantage=False, disadvantage=False)] *)
Definition make_ability_check (ability_score proficiency_bonus difficulty_class : Z)
    (advantage disadvantage : bool) : Rand AbilityCheck :=
  let modifier := get_ability_modifier ability_score + proficiency_bonus in
  roll_result ←
    (if advantage && negb disadvantage then
       roll1 ← randint 1 20;
       roll2 ← randint 1 20;
       mret (Z.max roll1 roll2)
     else if disadvantage && negb advantage then
       roll1 ← randint 1 20;
       roll2 ← randint 1 20;
       mret (Z.min roll1 roll2)
     else randint 1 20);
  let total := roll_result + modifier in
  let success := total >=? difficulty_class in
  mret {| type := "d20";
          result := roll_result;
          modifier := modifier;
          total := total;
          dc := difficulty_class;
          success := success;
          advantage := advantage;
          disadvantage := disadvantage |}.

(** [def calculate_armor_class(self, dexterity, armor_type="leather_armor")] *)
Definition calculate_armor_class (dexterity : Z) (armor_type : string) : Z :=
  let dex_mod := get_ability_modifier dexterity in
  let armor_ac : gmap string Z :=
    {[ "leather_armor" := 11; "chain_mail" := 16; "plate_armor" := 18;
       "no_armor" := 10 ]} in
  let base_ac := default 10 (armor_ac !! armor_type) in
  if bool_decide (armor_type ∈ ["leather_armor"; "no_armor"]) then
    base_ac + dex_mod
  else if bool_decide (armor_type = "chain_mail") then
    base_ac + Z.min dex_mod 2
  else base_ac.

(** [def calculate_saving_throws(self, stats, character_class,
        proficiency_bonus)] *)
Definition calculate_saving_throws (stats : gmap string Z) (character_class : string)
    (proficiency_bonus : Z) : gmap string Z :=
  let class_proficiencies : gmap string (list string) :=
    {[ "rogue" := ["dexterity"; "intelligence"];
       "fighter" := ["strength"; "constitution"];
       "wizard" := ["intelligence"; "wisdom"];
       "cleric" := ["wisdom"; "charisma"] ]} in
  let proficient_saves := default [] (class_proficiencies !! character_class) in
  foldl (λ (saving_throws : gmap string Z) (item : string * Z),
           let ability := item.1 in
           let score := item.2 in
           let modifier := get_ability_modifier score in
           let modifier :=
             if bool_decide (ability ∈ proficient_saves)
             then modifier + proficiency_bonus else modifier in
           <[ability := modifier]> saving_throws)
        ∅ (map_to_list stats).

(** [def calculate_starting_health(self, character_class, constitution)] *)
Definition calculate_starting_health (character_class : string) (constitution : Z) :
    gmap string Z :=
  let class_hit_dice : gmap string Z :=
    {[ "rogue" := 8; "fighter" := 10; "wizard" := 6; "cleric" := 8 ]} in
  let hit_die := default 8 (class_hit_dice !! character_class) in
  let con_mod := get_ability_modifier constitution in
  let starting_hp := hit_die + con_mod in
  {[ "current" := starting_hp; "maximum" := starting_hp; "temporary" := 0 ]}.


End DnDRules.

(** ** The game data service ([app/services/game_data_service.py])

    The talent catalogue is read from a JSON file; here it is the argument
    [load_talents], a list of entries with the fields the repository's tests
    require of them. *)
Module GameData.

Record Requirements : Type := mkRequirements {
  path : option string;
  skills : list string
}.

Record Talent : Type := mkTalent {
  id : string;
  name : string;
  description : string;
  cost : Z;
  requirements : Requirements
}.

(** [def get_talent_by_id(talent_id)] *)
Fixpoint get_talent_by_id (load_talents : list Talent) (talent_id : string) :
    option Talent :=
  match load_talents with
  | [] => None
  | talent :: rest =>
      if bool_decide (id talent = talent_id) then Some talent
      else get_talent_by_id rest talent_id
  end.

(** [def get_talents_for_path(path_id=None)] *)
Definition get_talents_for_path (load_talents : list Talent)
    (path_id : option string) : list Talent :=
  match path_id with
  | None => filter (λ t, path (requirements t) = None) load_talents
  | Some p =>
      filter (λ t, path (requirements t) = Some p ∨ path (requirements t) = None)
        load_talents
  end.

(** [def validate_talent(talent_id, path_id, skills)] *)
Definition validate_talent (load_talents : list Talent) (talent_id path_id : string)
    (skills : list string) : bool :=
  match get_talent_by_id load_talents talent_id with
  | None => false
  | Some talent =>
      let required_path := path (requirements talent) in
      if bool_decide (required_path ≠ None ∧ required_path ≠ Some path_id) then false
      else
        let required_skills := (requirements talent).(GameData.skills) in
        match required_skills with
        | [] => true
        | _ :: _ =>
            if negb (existsb (λ skill, bool_decide (skill ∈ skills)) required_skills)
            then false else true
        end
  end.

(** A catalogue with the one talent the tests name (riposte, for the blade
    path, requiring the Blade skill) and a talent open to every path. *)
Definition sample_talents : list Talent :=
  [ {| id := "riposte"; name := "Riposte";
       description := "Counter after a parry"; cost := 2;
       requirements := {| path := Some "blade"; skills := ["Blade"] |} |};
    {| id := "second_wind"; name := "Second Wind";
       description := "Catch your breath"; cost := 1;
       requirements := {| path := None; skills := [] |} |} ].

End GameData.

(** The value of the [n]-th upcoming [random.randint(1, 20)]. *)
Definition nth_d20 (g : RandomState) (n : nat) : Z :=
  1 + entropy g (drawn g + n)%nat `mod` 20.

(** ** Facts about the random source *)

Lemma roll_d12_value (g : RandomState) : (roll_d12 g).1 = nth_roll g 0.
Proof. unfold roll_d12, randint, nth_roll. simpl. by rewrite Nat.add_0_r. Qed.

Lemma roll_d12_state (g : RandomState) :
  (roll_d12 g).2 = {| entropy := entropy g; drawn := S (drawn g) |}.
Proof. reflexivity. Qed.

Lemma nth_roll_range (g : RandomState) (n : nat) : 1 ≤ nth_roll g n ≤ 12.
Proof.
  unfold nth_roll.
  pose proof (Z.mod_pos_bound (entropy g (drawn g + n)%nat) 12). lia.
Qed.

Lemma nth_roll_shift (g : RandomState) (n : nat) :
  nth_roll {| entropy := entropy g; drawn := S (drawn g) |} n = nth_roll g (S n).
Proof. unfold nth_roll. simpl. do 2 f_equal. f_equal. lia. Qed.

Lemma roll_d12_range (g : RandomState) : 1 ≤ (roll_d12 g).1 ≤ 12.
Proof. rewrite roll_d12_value. apply nth_roll_range. Qed.

(** The repository's tests of the two calculators. *)
Example bonus_tests :
  map calculate_attribute_bonus [0; 1; 2; 3; 6; 10; 20] = [0; 0; 1; 1; 3; 5; 10] ∧
  map calculate_skill_rank [0; 3; 4; 7; 8; 12; 20] = [0; 0; 1; 1; 2; 3; 5].
Proof. split; reflexivity. Qed.

(** ** Unfolding [perform_check] *)

Lemma perform_check_unfold a s d e m g :
  perform_check a s d e m g =
    (let t := dice_result_used e g + calculate_attribute_bonus a
              + calculate_skill_rank s + m in
     {| total := t;
        difficulty := d;
        margin := t - d;
        outcome := if t - d >=? 5 then STRONG_SUCCESS
                   else if t - d >=? 0 then SUCCESS
                   else if t - d >=? -2 then NEAR_MISS
                   else FAILURE;
        dice_rolls := rolls_recorded e g;
        attribute_bonus := calculate_attribute_bonus a;
        skill_rank := calculate_skill_rank s;
        situational_modifier := m;
        edge_type := e |},
     {| entropy := entropy g; drawn := (drawn g + rolls_consumed e)%nat |}).
Proof.
  unfold perform_check, mbind, mret, Rand_bind, Rand_ret, dice_result_used,
    rolls_recorded, rolls_consumed.
  destruct e; simpl;
    unfold nth_roll; simpl;
    rewrite ?Nat.add_0_r, ?Nat.add_1_r; repeat f_equal; lia.
Qed.

(** ** The check resolver *)

Lemma tier_of_margin_spec (m : Z) :
  (if m >=? 5 then STRONG_SUCCESS
   else if m >=? 0 then SUCCESS
   else if m >=? -2 then NEAR_MISS
   else FAILURE) = tier_of_margin m.
Proof.
  unfold tier_of_margin.
  destruct (Z.geb_spec m 5), (Z.geb_spec m 0), (Z.geb_spec m (-2));
    repeat case_decide; try lia; reflexivity.
Qed.

Lemma floor_div_bounds (a b : Z) : 0 < b → b * (a `div` b) ≤ a < b * (a `div` b) + b.
Proof.
  intros Hb. pose proof (Z.mod_pos_bound a b Hb).
  pose proof (Z.div_mod a b ltac:(lia)). lia.
Qed.

(** C1: the margin is the total minus the difficulty, and the outcome is the
    tier of the margin: at least 5 is a strong success, 0 to 4 a success,
    -2 and -1 a near miss, anything below -2 a failure. *)
Theorem perform_check_margin_law (a s d : Z) (e : EdgeType) (m : Z) (g : RandomState) :
  let r := (perform_check a s d e m g).1 in
  margin r = total r - difficulty r ∧
  outcome r = tier_of_margin (margin r) ∧
  (5 ≤ margin r ↔ outcome r = STRONG_SUCCESS) ∧
  (0 ≤ margin r < 5 ↔ outcome r = SUCCESS) ∧
  (-2 ≤ margin r < 0 ↔ outcome r = NEAR_MISS) ∧
  (margin r < -2 ↔ outcome r = FAILURE) ∧
  (margin r = 5 → outcome r = STRONG_SUCCESS) ∧
  (margin r = 0 → outcome r = SUCCESS) ∧
  (margin r = -2 → outcome r = NEAR_MISS) ∧
  (margin r = -3 → outcome r = FAILURE).
Proof.
  rewrite perform_check_unfold. cbn zeta. simpl.
  set (mg := _ - d). rewrite tier_of_margin_spec.
  split; [reflexivity|]. split; [reflexivity|].
  unfold tier_of_margin.
  repeat case_decide; repeat split; intros; try lia; try discriminate; reflexivity.
Qed.

(** The four boundary margins named by the margin law are reached by real
    invocations. *)
Example margin_boundaries :
  let r5 := (perform_check 6 8 5 NONE 0 (fixed_rolls [5])).1 in
  let r0 := (perform_check 6 8 10 NONE 0 (fixed_rolls [5])).1 in
  let r2 := (perform_check 6 8 12 NONE 0 (fixed_rolls [5])).1 in
  let r3 := (perform_check 6 8 13 NONE 0 (fixed_rolls [5])).1 in
  (margin r5, outcome r5) = (5, STRONG_SUCCESS) ∧
  (margin r0, outcome r0) = (0, SUCCESS) ∧
  (margin r2, outcome r2) = (-2, NEAR_MISS) ∧
  (margin r3, outcome r3) = (-3, FAILURE).
Proof. repeat split; reflexivity. Qed.

(** C2: with advantage two dice are rolled, both are recorded in roll order
    and the larger one enters the total; with disadvantage the same with the
    smaller one; with no edge one die is rolled, recorded and used. *)
Theorem perform_check_edge_rule (a s d : Z) (e : EdgeType) (m : Z) (g : RandomState) :
  let roll1 := (roll_d12 g).1 in
  let g1 := (roll_d12 g).2 in
  let roll2 := (roll_d12 g1).1 in
  let g2 := (roll_d12 g1).2 in
  let r := (perform_check a s d e m g).1 in
  let g' := (perform_check a s d e m g).2 in
  let used := total r - attribute_bonus r - skill_rank r - situational_modifier r in
  match e with
  | ADVANTAGE => dice_rolls r = [roll1; roll2] ∧ used = Z.max roll1 roll2 ∧ g' = g2
  | DISADVANTAGE => dice_rolls r = [roll1; roll2] ∧ used = Z.min roll1 roll2 ∧ g' = g2
  | NONE => dice_rolls r = [roll1] ∧ used = roll1 ∧ g' = g1
  end.
Proof.
  cbn zeta. unfold perform_check, mbind, mret, Rand_bind, Rand_ret.
  destruct e; simpl; repeat split; lia.
Qed.

(** C3: the total is the die value picked by the edge rule plus
    floor(attribute/2) plus floor(skill/4) plus the situational modifier; the
    two floors are the values of the two calculators, and they, the modifier
    and the edge mode are stored unchanged in the result. *)
Theorem perform_check_total_formula (a s d : Z) (e : EdgeType) (m : Z) (g : RandomState) :
  let r := (perform_check a s d e m g).1 in
  total r = dice_result_used e g + a `div` 2 + s `div` 4 + m ∧
  calculate_attribute_bonus a = a `div` 2 ∧
  2 * calculate_attribute_bonus a ≤ a < 2 * calculate_attribute_bonus a + 2 ∧
  calculate_skill_rank s = s `div` 4 ∧
  4 * calculate_skill_rank s ≤ s < 4 * calculate_skill_rank s + 4 ∧
  attribute_bonus r = calculate_attribute_bonus a ∧
  skill_rank r = calculate_skill_rank s ∧
  situational_modifier r = m ∧
  edge_type r = e.
Proof.
  rewrite perform_check_unfold. cbn zeta. simpl.
  unfold calculate_attribute_bonus, calculate_skill_rank.
  pose proof (floor_div_bounds a 2 ltac:(lia)).
  pose proof (floor_div_bounds s 4 ltac:(lia)).
  repeat split; lia.
Qed.

(** The die value of C3 is the one C2 describes in terms of [roll_d12]. *)
Lemma dice_result_used_rolls (e : EdgeType) (g : RandomState) :
  let roll1 := (roll_d12 g).1 in
  let roll2 := (roll_d12 (roll_d12 g).2).1 in
  dice_result_used e g =
    match e with
    | ADVANTAGE => Z.max roll1 roll2
    | DISADVANTAGE => Z.min roll1 roll2
    | NONE => roll1
    end.
Proof.
  cbn zeta. rewrite roll_d12_state, !roll_d12_value, nth_roll_shift.
  by destruct e.
Qed.

(** C6: for all integer scores, difficulty and modifier and every edge mode
    [perform_check] yields a result (one or two rolls, each a face of the
    die), and both calculators yield the integer floor of the quotient. *)
Theorem perform_check_is_total (a s d : Z) (e : EdgeType) (m : Z) (g : RandomState) :
  (∃ (r : CheckResult) (g' : RandomState),
      perform_check a s d e m g = (r, g') ∧
      difficulty r = d ∧
      edge_type r = e ∧
      length (dice_rolls r) = rolls_consumed e ∧
      Forall (λ roll, 1 ≤ roll ≤ 12) (dice_rolls r) ∧
      drawn g' = (drawn g + rolls_consumed e)%nat) ∧
  (∃ q : Z, calculate_attribute_bonus a = q ∧ 2 * q ≤ a < 2 * q + 2) ∧
  (∃ q : Z, calculate_skill_rank s = q ∧ 4 * q ≤ s < 4 * q + 4).
Proof.
  split; [|split].
  - rewrite perform_check_unfold. cbn zeta. eexists _, _.
    split; [reflexivity|]. simpl. repeat split.
    + by destruct e.
    + destruct e; simpl; repeat constructor; apply nth_roll_range.
  - eexists. split; [reflexivity|]. apply floor_div_bounds. lia.
  - eexists. split; [reflexivity|]. apply floor_div_bounds. lia.
Qed.

(** C8: hit points are 8 + 2 * might, focus is 4 + wits + presence, inventory
    slots are 8 + might, for all integers. *)
Theorem derived_stats_formulas (m w p : Z) :
  calculate_max_hp m = 8 + 2 * m ∧
  calculate_max_focus w p = 4 + w + p ∧
  calculate_inventory_slots m = 8 + m ∧
  calculate_max_hp 3 = 14 ∧
  calculate_max_focus 4 2 = 10 ∧
  calculate_inventory_slots 3 = 11.
Proof.
  unfold calculate_max_hp, calculate_max_focus, calculate_inventory_slots.
  repeat split; lia.
Qed.

(** C10: both calculators are floor division, rounding toward minus
    infinity: the bonus is the one integer q with 2q <= score < 2q + 2 and
    the rank the one integer q with 4q <= score < 4q + 4, for every integer
    score.  So a negative score gives a negative bonus and rank (never zero:
    -1 gives -1 and -3 gives -1, where truncation toward zero would give 0),
    and a negative attribute or skill score passed to a check lowers its
    total by exactly that negative amount, making it strictly smaller than
    score 0 would. *)
Theorem negative_scores_floor (score : Z) :
  score < 0 →
  (∀ x, calculate_attribute_bonus x = x `div` 2 ∧
        2 * calculate_attribute_bonus x ≤ x < 2 * calculate_attribute_bonus x + 2) ∧
  (∀ x, calculate_skill_rank x = x `div` 4 ∧
        4 * calculate_skill_rank x ≤ x < 4 * calculate_skill_rank x + 4) ∧
  (∀ x q, 2 * q ≤ x < 2 * q + 2 → calculate_attribute_bonus x = q) ∧
  (∀ x q, 4 * q ≤ x < 4 * q + 4 → calculate_skill_rank x = q) ∧
  calculate_attribute_bonus score < 0 ∧
  calculate_skill_rank score < 0 ∧
  calculate_attribute_bonus (-1) = -1 ∧
  calculate_skill_rank (-3) = -1 ∧
  calculate_attribute_bonus (-1) ≠ (-1) `quot` 2 ∧
  calculate_skill_rank (-3) ≠ (-3) `quot` 4 ∧
  (∀ a s d e m g,
      total (perform_check score s d e m g).1
        = total (perform_check 0 s d e m g).1 + calculate_attribute_bonus score ∧
      total (perform_check a score d e m g).1
        = total (perform_check a 0 d e m g).1 + calculate_skill_rank score ∧
      total (perform_check score s d e m g).1
        < total (perform_check 0 s d e m g).1 ∧
      total (perform_check a score d e m g).1
        < total (perform_check a 0 d e m g).1).
Proof.
  intros Hneg.
  assert (Ha : calculate_attribute_bonus score < 0)
    by (apply Z.div_lt_upper_bound; lia).
  assert (Hs : calculate_skill_rank score < 0)
    by (apply Z.div_lt_upper_bound; lia).
  split; [intros x; split; [reflexivity|apply floor_div_bounds; lia]|].
  split; [intros x; split; [reflexivity|apply floor_div_bounds; lia]|].
  split.
  { intros x q Hq. unfold calculate_attribute_bonus.
    pose proof (floor_div_bounds x 2 ltac:(lia)). lia. }
  split.
  { intros x q Hq. unfold calculate_skill_rank.
    pose proof (floor_div_bounds x 4 ltac:(lia)). lia. }
  split; [exact Ha|]. split; [exact Hs|].
  split; [reflexivity|]. split; [reflexivity|].
  split; [by vm_compute|]. split; [by vm_compute|].
  intros a s d e m g. rewrite !perform_check_unfold. cbn zeta.
  cbn [fst total].
  change (calculate_attribute_bonus 0) with 0.
  change (calculate_skill_rank 0) with 0.
  repeat split; lia.
Qed.

Lemma negative_scores_floor_witness :
  (∀ x, calculate_attribute_bonus x = x `div` 2 ∧
        2 * calculate_attribute_bonus x ≤ x < 2 * calculate_attribute_bonus x + 2) ∧
  (∀ x, calculate_skill_rank x = x `div` 4 ∧
        4 * calculate_skill_rank x ≤ x < 4 * calculate_skill_rank x + 4) ∧
  (∀ x q, 2 * q ≤ x < 2 * q + 2 → calculate_attribute_bonus x = q) ∧
  (∀ x q, 4 * q ≤ x < 4 * q + 4 → calculate_skill_rank x = q) ∧
  calculate_attribute_bonus (-7) < 0 ∧
  calculate_skill_rank (-7) < 0 ∧
  calculate_attribute_bonus (-1) = -1 ∧
  calculate_skill_rank (-3) = -1 ∧
  calculate_attribute_bonus (-1) ≠ (-1) `quot` 2 ∧
  calculate_skill_rank (-3) ≠ (-3) `quot` 4 ∧
  (∀ a s d e m g,
      total (perform_check (-7) s d e m g).1
        = total (perform_check 0 s d e m g).1 + calculate_attribute_bonus (-7) ∧
      total (perform_check a (-7) d e m g).1
        = total (perform_check a 0 d e m g).1 + calculate_skill_rank (-7) ∧
      total (perform_check (-7) s d e m g).1
        < total (perform_check 0 s d e m g).1 ∧
      total (perform_check a (-7) d e m g).1
        < total (perform_check a 0 d e m g).1).
Proof. apply (negative_scores_floor (-7)). lia. Defined.

(** ** Loops that raise *)

Lemma for_each_ok {A : Type} (xs : list A) (body : A → result unit) :
  Forall (λ x, body x = Returns tt) xs → for_each xs body = Returns tt.
Proof.
  induction 1 as [|x xs Hx _ IH]; [reflexivity|].
  simpl. rewrite Hx. exact IH.
Qed.

Lemma for_each_first_failure {A : Type} (pre post : list A) (x : A)
    (body : A → result unit) (e : exn) :
  Forall (λ y, body y = Returns tt) pre →
  body x = Raises e →
  for_each (pre ++ x :: post) body = Raises e.
Proof.
  intros Hpre Hx. induction Hpre as [|y pre Hy _ IH]; simpl.
  - by rewrite Hx.
  - by rewrite Hy.
Qed.

Lemma first_violation {A : Type} (P : A → Prop) `{!∀ x, Decision (P x)}
    (xs : list A) :
  ¬ Forall P xs →
  ∃ pre x post, xs = pre ++ x :: post ∧ Forall P pre ∧ ¬ P x.
Proof.
  induction xs as [|y xs IH]; intros Hnot.
  - destruct Hnot. constructor.
  - destruct (decide (P y)) as [Hy|Hy].
    + destruct IH as (pre & x & post & -> & Hpre & Hx).
      { intros Hxs. apply Hnot. by constructor. }
      exists (y :: pre), x, post. repeat split; [by constructor|done].
    + exists [], y, xs. repeat split; [constructor|done].
Qed.

Lemma score_check_ok (missing label : string) (d : gmap string Z) (key : string) :
  score_ok d key → score_check missing label d key = Returns tt.
Proof.
  unfold score_ok, score_check, py_in, getitem.
  destruct (d !! key) as [v|]; [|done]. intros Hv. simpl.
  destruct (Z.leb_spec 0 v), (Z.leb_spec v 20); simpl; try lia. reflexivity.
Qed.

Lemma score_check_fail (missing label : string) (d : gmap string Z) (key : string) :
  ¬ score_ok d key →
  (d !! key = None ∧
   score_check missing label d key = Raises (ValidationError (missing +:+ key))) ∨
  (∃ score, d !! key = Some score ∧ ¬ 0 ≤ score ≤ 20 ∧
     score_check missing label d key =
       Raises (ValidationError
         (label +:+ key +:+ " must be 0-20, got " +:+ pretty score))).
Proof.
  unfold score_ok, score_check, py_in, getitem.
  destruct (d !! key) as [v|]; [|by left]. intros Hv. right.
  exists v. repeat split; [done|]. simpl.
  destruct (Z.leb_spec 0 v), (Z.leb_spec v 20); simpl; try lia; reflexivity.
Qed.

(** The loop over required keys either passes, or stops at the first key
    that is missing or out of range, with that key's message. *)
Lemma score_loop_ok (missing label : string) (d : gmap string Z) (keys : list string) :
  Forall (score_ok d) keys →
  for_each keys (score_check missing label d) = Returns tt.
Proof.
  intros H. apply for_each_ok. eapply Forall_impl; [exact H|].
  intros k Hk. by apply score_check_ok.
Qed.

Lemma score_loop_fail (missing label : string) (d : gmap string Z) (keys : list string) :
  ¬ Forall (score_ok d) keys →
  ∃ pre key post,
    keys = pre ++ key :: post ∧ Forall (score_ok d) pre ∧
    ((d !! key = None ∧
      for_each keys (score_check missing label d) =
        Raises (ValidationError (missing +:+ key))) ∨
     (∃ score, d !! key = Some score ∧ ¬ 0 ≤ score ≤ 20 ∧
        for_each keys (score_check missing label d) =
          Raises (ValidationError
            (label +:+ key +:+ " must be 0-20, got " +:+ pretty score)))).
Proof.
  intros Hnot.
  destruct (first_violation _ _ Hnot) as (pre & key & post & -> & Hpre & Hkey).
  exists pre, key, post. repeat split; [done|].
  assert (Hpre' : Forall (λ y, score_check missing label d y = Returns tt) pre).
  { eapply Forall_impl; [exact Hpre|]. intros k Hk. by apply score_check_ok. }
  destruct (score_check_fail missing label d key Hkey)
    as [[Hnone Hres]|(score & Hsome & Hrange & Hres)].
  - left. split; [done|]. by apply for_each_first_failure.
  - right. exists score. repeat split; [done..|]. by apply for_each_first_failure.
Qed.

Lemma attr_sum_computed (attributes : gmap string Z) :
  attrs_in_range attributes →
  py_sum int_add (getitem attributes) required_attrs 0 = Returns (attr_sum attributes).
Proof.
  unfold attrs_in_range, required_attrs, attr_sum, score_ok.
  rewrite !Forall_cons. intros (H1 & H2 & H3 & H4 & _).
  simpl. unfold getitem. rewrite !lookup_total_alt.
  destruct (attributes !! "might"); [|done].
  destruct (attributes !! "agility"); [|done].
  destruct (attributes !! "wits"); [|done].
  destruct (attributes !! "presence"); [|done].
  simpl. reflexivity.
Qed.

Lemma talent_loop_ok (talents : list (gmap string pyval)) :
  talents_named talents → for_each talents talent_check = Returns tt.
Proof.
  intros H. apply for_each_ok. eapply Forall_impl; [exact H|].
  intros t [v Hv]. unfold talent_check, py_in. by rewrite Hv.
Qed.

Lemma talent_loop_fail (talents : list (gmap string pyval)) :
  ¬ talents_named talents →
  for_each talents talent_check =
    Raises (ValidationError "Talent missing 'name' field").
Proof.
  intros Hnot.
  destruct (first_violation _ _ Hnot) as (pre & t & post & -> & Hpre & Ht).
  apply for_each_first_failure.
  - eapply Forall_impl; [exact Hpre|].
    intros t' [v Hv]. unfold talent_check, py_in. by rewrite Hv.
  - unfold talent_check, py_in. destruct (t !! "name") eqn:E; [|done].
    destruct Ht. by eexists.
Qed.

(** ** The phases of [validate_character_creation] *)

Lemma validate_character_creation_eq (attributes skills : gmap string Z)
    (talents : list (gmap string pyval)) (path_id : string) :
  validate_character_creation attributes skills talents path_id =
    (_ ← for_each required_attrs
           (score_check "Missing attribute: " "Attribute " attributes);
     attr_total ← py_sum int_add (getitem attributes) required_attrs 0;
     if negb (attr_total =? 15) then
       Raises (ValidationError
         ("Attributes must sum to 15, got " +:+ pretty attr_total))
     else
     _ ← for_each required_skills (score_check "Missing skill: " "Skill " skills);
     if negb (selected_count skills =? 3)%nat then
       Raises (ValidationError
         ("Must select exactly 3 starting skills, got "
          +:+ pretty (selected_count skills)))
     else
     if negb (length talents =? 2)%nat then
       Raises (ValidationError
         ("Must select exactly 2 starting talents, got "
          +:+ pretty (length talents)))
     else
     _ ← for_each talents talent_check;
     Returns true).
Proof.
  unfold validate_character_creation, selected_count.
  rewrite length_fmap. reflexivity.
Qed.

Ltac step_result :=
  unfold mbind, result_bind; cbn beta iota.

Section phases.
Variables (attributes skills : gmap string Z).
Variables (talents : list (gmap string pyval)) (path_id : string).

Let res := validate_character_creation attributes skills talents path_id.

Lemma phase_attribute_range :
  ¬ attrs_in_range attributes →
  ∃ pre attr post,
    required_attrs = pre ++ attr :: post ∧ Forall (score_ok attributes) pre ∧
    ((attributes !! attr = None ∧
      res = Raises (ValidationError ("Missing attribute: " +:+ attr))) ∨
     (∃ score, attributes !! attr = Some score ∧ ¬ 0 ≤ score ≤ 20 ∧
        res = Raises (ValidationError
          ("Attribute " +:+ attr +:+ " must be 0-20, got " +:+ pretty score)))).
Proof.
  intros Hnot. subst res. rewrite validate_character_creation_eq.
  destruct (score_loop_fail "Missing attribute: " "Attribute " _ _ Hnot)
    as (pre & attr & post & Heq & Hpre & Hcase).
  exists pre, attr, post. split; [exact Heq|]. split; [exact Hpre|].
  destruct Hcase as [[Hnone ->]|(score & Hsome & Hrange & ->)].
  - left. by step_result.
  - right. exists score. by step_result.
Qed.

Lemma phase_attribute_sum :
  attrs_in_range attributes →
  attr_sum attributes ≠ 15 →
  res = Raises (ValidationError
    ("Attributes must sum to 15, got " +:+ pretty (attr_sum attributes))).
Proof.
  intros H1 H2. subst res. rewrite validate_character_creation_eq.
  rewrite (score_loop_ok _ _ attributes) by exact H1. step_result.
  rewrite attr_sum_computed by done. step_result.
  destruct (Z.eqb_spec (attr_sum attributes) 15); [done|reflexivity].
Qed.

Lemma phase_skill_range :
  attrs_in_range attributes →
  attr_sum attributes = 15 →
  ¬ skills_in_range skills →
  ∃ pre skill post,
    required_skills = pre ++ skill :: post ∧ Forall (score_ok skills) pre ∧
    ((skills !! skill = None ∧
      res = Raises (ValidationError ("Missing skill: " +:+ skill))) ∨
     (∃ score, skills !! skill = Some score ∧ ¬ 0 ≤ score ≤ 20 ∧
        res = Raises (ValidationError
          ("Skill " +:+ skill +:+ " must be 0-20, got " +:+ pretty score)))).
Proof.
  intros H1 H2 Hnot. subst res. rewrite validate_character_creation_eq.
  rewrite (score_loop_ok _ _ attributes) by exact H1. step_result.
  rewrite attr_sum_computed by done. step_result.
  rewrite H2. cbn [Z.eqb Pos.eqb negb].
  destruct (score_loop_fail "Missing skill: " "Skill " _ _ Hnot)
    as (pre & skill & post & Heq & Hpre & Hcase).
  exists pre, skill, post. split; [exact Heq|]. split; [exact Hpre|].
  destruct Hcase as [[Hnone ->]|(score & Hsome & Hrange & ->)].
  - left. by step_result.
  - right. exists score. by step_result.
Qed.

Lemma phase_skill_count :
  attrs_in_range attributes →
  attr_sum attributes = 15 →
  skills_in_range skills →
  selected_count skills ≠ 3%nat →
  res = Raises (ValidationError
    ("Must select exactly 3 starting skills, got "
     +:+ pretty (selected_count skills))).
Proof.
  intros H1 H2 H3 H4. subst res. rewrite validate_character_creation_eq.
  rewrite (score_loop_ok _ _ attributes) by exact H1. step_result.
  rewrite attr_sum_computed by done. step_result.
  rewrite H2. cbn [Z.eqb Pos.eqb negb].
  rewrite (score_loop_ok _ _ skills) by exact H3. step_result.
  destruct (Nat.eqb_spec (selected_count skills) 3); [done|reflexivity].
Qed.

Lemma phase_talent_count :
  attrs_in_range attributes →
  attr_sum attributes = 15 →
  skills_in_range skills →
  selected_count skills = 3%nat →
  length talents ≠ 2%nat →
  res = Raises (ValidationError
    ("Must select exactly 2 starting talents, got "
     +:+ pretty (length talents))).
Proof.
  intros H1 H2 H3 H4 H5. subst res. rewrite validate_character_creation_eq.
  rewrite (score_loop_ok _ _ attributes) by exact H1. step_result.
  rewrite attr_sum_computed by done. step_result.
  rewrite H2. cbn [Z.eqb Pos.eqb negb].
  rewrite (score_loop_ok _ _ skills) by exact H3. step_result.
  rewrite H4. cbn [Nat.eqb negb].
  destruct (Nat.eqb_spec (length talents) 2); [done|reflexivity].
Qed.

Lemma phase_talent_names :
  attrs_in_range attributes →
  attr_sum attributes = 15 →
  skills_in_range skills →
  selected_count skills = 3%nat →
  length talents = 2%nat →
  res = (_ ← for_each talents talent_check; Returns true).
Proof.
  intros H1 H2 H3 H4 H5. subst res. rewrite validate_character_creation_eq.
  rewrite (score_loop_ok _ _ attributes) by exact H1. step_result.
  rewrite attr_sum_computed by done. step_result.
  rewrite H2. cbn [Z.eqb Pos.eqb negb].
  rewrite (score_loop_ok _ _ skills) by exact H3. step_result.
  rewrite H4, H5. reflexivity.
Qed.
End phases.

(** ** Counting the selected skills *)

Lemma filter_length_ext {A : Type} (P Q : A → Prop)
    `{!∀ x, Decision (P x)} `{!∀ x, Decision (Q x)} (l : list A) :
  (∀ x, x ∈ l → P x ↔ Q x) →
  length (filter P l) = length (filter Q l).
Proof.
  induction l as [|x l IH]; intros Hext; [reflexivity|].
  rewrite !filter_cons.
  assert (Hx : P x ↔ Q x) by (apply Hext; by left).
  assert (Hl : length (filter P l) = length (filter Q l)).
  { apply IH. intros y Hy. apply Hext. by right. }
  destruct (decide (P x)), (decide (Q x)); simpl; tauto || lia.
Qed.

Lemma selected_count_insert (m : gmap string Z) (key : string) (v : Z) :
  m !! key = None →
  selected_count (<[key:=v]> m) =
    ((if decide (0 < v)%Z then 1 else 0) + selected_count m)%nat.
Proof.
  intros Hfresh. unfold selected_count.
  rewrite (map_to_list_insert m key v Hfresh), filter_cons. simpl.
  by destruct (decide (0 < v)).
Qed.

(** When the keys of a map are exactly the listed ones, counting over the
    entries of the map is counting over the list. *)
Lemma selected_count_keys (keys : list string) :
  NoDup keys →
  ∀ m : gmap string Z,
    dom m = list_to_set keys →
    selected_count m = length (filter (λ key, 0 < m !!! key) keys).
Proof.
  induction 1 as [|key keys Hkey Hnodup IH]; intros m Hdom.
  - simpl in Hdom. apply dom_empty_inv_L in Hdom as ->.
    unfold selected_count. by rewrite map_to_list_empty.
  - assert (Hin : key ∈ dom m).
    { rewrite Hdom, elem_of_list_to_set. by left. }
    apply elem_of_dom in Hin as [v Hv].
    rewrite <- (insert_delete_id m key v Hv) at 1.
    rewrite selected_count_insert by apply lookup_delete_eq.
    rewrite IH.
    + rewrite filter_cons, (lookup_total_correct m key v Hv).
      rewrite (filter_length_ext (λ k, 0 < delete key m !!! k) (λ k, 0 < m !!! k)).
      * by destruct (decide (0 < v)).
      * intros k Hk. rewrite !lookup_total_alt, lookup_delete_ne; [done|].
        intros ->. done.
    + rewrite dom_delete_L, Hdom. apply set_eq. intros k.
      rewrite elem_of_difference, !elem_of_list_to_set, elem_of_cons,
        elem_of_singleton.
      split; [intros [[->|Hk] Hne]; done|].
      intros Hk. split; [by right|]. intros ->. done.
Qed.

Lemma required_skills_NoDup : NoDup required_skills.
Proof. apply (bool_decide_unpack _). by vm_compute. Qed.

(** On the canonical skills, once they are in range, a positive score and a
    non-zero score are the same thing. *)
Lemma positive_canonical (skills : gmap string Z) :
  skills_in_range skills →
  length (filter (λ key, 0 < skills !!! key) required_skills)
    = nonzero_canonical skills.
Proof.
  intros Hrange. unfold nonzero_canonical. apply filter_length_ext.
  intros k Hk. unfold skills_in_range in Hrange.
  rewrite Forall_forall in Hrange. specialize (Hrange k Hk).
  unfold score_ok in Hrange. rewrite lookup_total_alt.
  destruct (skills !! k); simpl; [lia|done].
Qed.

(** A skills map that holds exactly the canonical names is counted as the
    specification counts. *)
Lemma selected_count_canonical (skills : gmap string Z) :
  dom skills = list_to_set required_skills →
  skills_in_range skills →
  selected_count skills = nonzero_canonical skills.
Proof.
  intros Hdom Hrange.
  rewrite (selected_count_keys _ required_skills_NoDup _ Hdom).
  by apply positive_canonical.
Qed.

Lemma skills_in_range_delete (skills : gmap string Z) (extra : string) :
  extra ∉ required_skills →
  skills_in_range skills →
  skills_in_range (delete extra skills).
Proof.
  intros Hextra. unfold skills_in_range. rewrite !Forall_forall.
  intros Hrange k Hk. specialize (Hrange k Hk).
  unfold score_ok in *. rewrite lookup_delete_ne; [done|].
  intros ->. done.
Qed.

Lemma nonzero_canonical_delete (skills : gmap string Z) (extra : string) :
  extra ∉ required_skills →
  nonzero_canonical (delete extra skills) = nonzero_canonical skills.
Proof.
  intros Hextra. unfold nonzero_canonical. apply filter_length_ext.
  intros k Hk. rewrite !lookup_total_alt, lookup_delete_ne; [done|].
  intros ->. done.
Qed.

(** One entry beside the ten canonical ones adds one to the count exactly
    when its score is positive. *)
Lemma selected_count_one_extra (skills : gmap string Z) (extra : string) (v : Z) :
  skills_in_range skills →
  extra ∉ required_skills →
  dom skills = list_to_set required_skills ∪ {[extra]} →
  skills !! extra = Some v →
  selected_count skills =
    ((if decide (0 < v)%Z then 1 else 0) + nonzero_canonical skills)%nat ∧
  selected_count (delete extra skills) = nonzero_canonical skills.
Proof.
  intros Hrange Hextra Hdom Hv.
  assert (Hbase : selected_count (delete extra skills) = nonzero_canonical skills).
  { rewrite selected_count_canonical.
    - by apply nonzero_canonical_delete.
    - rewrite dom_delete_L, Hdom. apply set_eq. intros k.
      rewrite elem_of_difference, elem_of_union, elem_of_singleton,
        elem_of_list_to_set.
      split; [intros [[Hk| ->] Hne]; done|].
      intros Hk. split; [by left|]. intros ->. done.
    - by apply skills_in_range_delete. }
  split; [|done].
  rewrite <- (insert_delete_id skills extra v Hv) at 1.
  rewrite selected_count_insert by apply lookup_delete_eq.
  by rewrite Hbase.
Qed.

(** ** The character creation validator *)

Lemma sum_message_mentions (n : string) :
  str_contains "sum to 15" ("Attributes must sum to 15, got " +:+ n) = true.
Proof. reflexivity. Qed.

(** Whatever the other three attributes are, a might of 22 stops the
    validator in its range check. *)
Lemma might_22_is_out_of_range (attributes skills : gmap string Z)
    (talents : list (gmap string pyval)) (path_id : string) :
  attributes !! "might" = Some 22 →
  validate_character_creation attributes skills talents path_id =
    Raises (ValidationError "Attribute might must be 0-20, got 22").
Proof.
  intros Hmight. unfold validate_character_creation, required_attrs.
  simpl. unfold py_in, getitem. rewrite Hmight. reflexivity.
Qed.

(** C4, as stated, fails: with might 22 (sum 31) and valid skills and
    talents the failure is the range failure of might, whose message does
    not mention the sum. *)
Lemma might_22_failure_is_not_the_sum :
  attr_sum might_22_attrs ≠ 15 ∧
  validate_character_creation might_22_attrs valid_skills valid_talents "blade" =
    Raises (ValidationError "Attribute might must be 0-20, got 22") ∧
  ¬ (∃ msg,
       validate_character_creation might_22_attrs valid_skills valid_talents "blade" =
         Raises (ValidationError msg) ∧
       str_contains "sum to 15" msg = true).
Proof.
  assert (Hres : validate_character_creation might_22_attrs valid_skills
                   valid_talents "blade" =
                 Raises (ValidationError "Attribute might must be 0-20, got 22"))
    by (by apply might_22_is_out_of_range).
  split; [by vm_compute|]. split; [exact Hres|].
  intros (msg & Hmsg & Hsub). rewrite Hres in Hmsg.
  injection Hmsg as <-. by vm_compute in Hsub.
Qed.

(** C4, amended: when the four attributes are present and in range but do
    not sum to 15, the validator raises "Attributes must sum to 15, got N",
    which mentions "sum to 15", and it does so whatever the skills, talents
    and path are: no skill or talent rule is looked at. *)
Theorem attribute_sum_failure_precedes_skills (attributes skills : gmap string Z)
    (talents : list (gmap string pyval)) (path_id : string) :
  attrs_in_range attributes →
  attr_sum attributes ≠ 15 →
  ∃ msg,
    msg = "Attributes must sum to 15, got " +:+ pretty (attr_sum attributes) ∧
    str_contains "sum to 15" msg = true ∧
    validate_character_creation attributes skills talents path_id =
      Raises (ValidationError msg) ∧
    ∀ skills' talents' path_id',
      validate_character_creation attributes skills' talents' path_id' =
        Raises (ValidationError msg).
Proof.
  intros Hrange Hsum. eexists. split; [reflexivity|].
  split; [apply sum_message_mentions|].
  split; [by apply phase_attribute_sum|].
  intros. by apply phase_attribute_sum.
Qed.

Lemma attribute_sum_failure_witness :
  ∃ msg,
    msg = "Attributes must sum to 15, got " +:+ pretty (attr_sum invalid_attrs) ∧
    str_contains "sum to 15" msg = true ∧
    validate_character_creation invalid_attrs valid_skills valid_talents "blade" =
      Raises (ValidationError msg) ∧
    ∀ skills' talents' path_id',
      validate_character_creation invalid_attrs skills' talents' path_id' =
        Raises (ValidationError msg).
Proof.
  apply (attribute_sum_failure_precedes_skills
           invalid_attrs valid_skills valid_talents "blade").
  - apply (bool_decide_unpack _). vm_compute. exact I.
  - vm_compute. discriminate.
Defined.

(** The message of the witness, spelled out. *)
Example invalid_attrs_message :
  validate_character_creation invalid_attrs valid_skills valid_talents "blade" =
    Raises (ValidationError "Attributes must sum to 15, got 17").
Proof. by vm_compute. Qed.



(** C9, as stated, fails for a negative extra score: the ten canonical
    skills are in range with exactly 3 non-zero, the map has one more entry
    [Magic] with the non-zero score -1, and the candidate is accepted. *)
Lemma negative_extra_skill_is_not_counted :
  skills_in_range skills_negative_extra ∧
  nonzero_canonical skills_negative_extra = 3%nat ∧
  dom skills_negative_extra = list_to_set required_skills ∪ {["Magic"]} ∧
  ("Magic" ∉ required_skills) ∧
  skills_negative_extra !! "Magic" = Some (-1) ∧
  validate_character_creation valid_attrs skills_negative_extra valid_talents "blade" =
    Returns true.
Proof.
  repeat apply conj.
  - apply (bool_decide_unpack _). vm_compute. exact I.
  - by vm_compute.
  - apply (bool_decide_unpack _). vm_compute. exact I.
  - apply (bool_decide_unpack _). vm_compute. exact I.
  - by vm_compute.
  - by vm_compute.
Qed.

(** C9, amended: let the attribute rules hold, the ten canonical skills be
    in range with exactly 3 non-zero, and the skills map hold one more,
    non-canonical entry.  If that entry's score is positive (in range or
    not) the candidate is rejected with "Must select exactly 3 starting
    skills, got 4"; if it is zero or negative the entry is ignored, the
    outcome being that of the candidate without it.  The extra entry is
    never range-checked. *)
Theorem extra_skill_entry_counted_when_positive (attributes skills : gmap string Z)
    (talents : list (gmap string pyval)) (path_id extra : string) (v : Z) :
  attrs_in_range attributes →
  attr_sum attributes = 15 →
  skills_in_range skills →
  nonzero_canonical skills = 3%nat →
  extra ∉ required_skills →
  dom skills = list_to_set required_skills ∪ {[extra]} →
  skills !! extra = Some v →
  (0 < v →
     validate_character_creation attributes skills talents path_id =
       Raises (ValidationError "Must select exactly 3 starting skills, got 4")) ∧
  (v ≤ 0 →
     validate_character_creation attributes skills talents path_id =
       validate_character_creation attributes (delete extra skills) talents path_id).
Proof.
  intros H1 H2 H3 Hthree Hextra Hdom Hv.
  destruct (selected_count_one_extra skills extra v H3 Hextra Hdom Hv)
    as [Hcount Hbase].
  rewrite Hthree in Hcount, Hbase.
  split; intros Hsign.
  - rewrite decide_True in Hcount by done.
    rewrite phase_skill_count by (done || lia).
    rewrite Hcount. reflexivity.
  - rewrite decide_False in Hcount by lia.
    pose proof (skills_in_range_delete skills extra Hextra H3) as H3'.
    destruct (decide (length talents = 2%nat)) as [H5|H5].
    + by rewrite !phase_talent_names.
    + by rewrite !phase_talent_count.
Qed.

Lemma extra_skill_entry_witness :
  (0 < 99 →
     validate_character_creation valid_attrs skills_positive_extra valid_talents "blade" =
       Raises (ValidationError "Must select exactly 3 starting skills, got 4")) ∧
  (99 ≤ 0 →
     validate_character_creation valid_attrs skills_positive_extra valid_talents "blade" =
       validate_character_creation valid_attrs
         (delete "Magic" skills_positive_extra) valid_talents "blade").
Proof.
  apply (extra_skill_entry_counted_when_positive
           valid_attrs skills_positive_extra valid_talents "blade" "Magic" 99).
  - apply (bool_decide_unpack _). vm_compute. exact I.
  - vm_compute. reflexivity.
  - apply (bool_decide_unpack _). vm_compute. exact I.
  - vm_compute. reflexivity.
  - apply (bool_decide_unpack _). vm_compute. exact I.
  - apply (bool_decide_unpack _). vm_compute. exact I.
  - vm_compute. reflexivity.
Defined.

(** The positive extra entry of the witness is far out of range, and the
    failure is the count, not a range failure. *)
Example positive_extra_skill_message :
  validate_character_creation valid_attrs skills_positive_extra valid_talents "blade" =
    Raises (ValidationError "Must select exactly 3 starting skills, got 4").
Proof. by vm_compute. Qed.

(** ** The quick attribute validator *)

Ltac case_comparisons :=
  repeat (match goal with
          | |- context [?x <=? ?y] => destruct (Z.leb_spec x y)
          | |- context [?x =? ?y] => destruct (Z.eqb_spec x y)
          end; simpl).

(** On four integers the body of the [try] block returns, and returns
    whether they sum to 15 and are all in range. *)
Lemma allocation_body_ints (attributes : gmap string pyval) (a b c d : Z) :
  attributes !! "might" = Some (PInt a) →
  attributes !! "agility" = Some (PInt b) →
  attributes !! "wits" = Some (PInt c) →
  attributes !! "presence" = Some (PInt d) →
  validate_attribute_allocation_body attributes =
    Returns (bool_decide (a + b + c + d = 15 ∧
                          0 ≤ a ≤ 20 ∧ 0 ≤ b ≤ 20 ∧ 0 ≤ c ≤ 20 ∧ 0 ≤ d ≤ 20)).
Proof.
  intros Ha Hb Hc Hd.
  unfold validate_attribute_allocation_body, py_in, getitem. simpl.
  unfold getitem. rewrite Ha, Hb, Hc, Hd. simpl.
  case_comparisons; f_equal; symmetry;
    (apply bool_decide_eq_true_2 || apply bool_decide_eq_false_2); lia.
Qed.

(** A [True] answer needs four integers: a missing key answers [False]
    before the sum, and a value that is not an integer makes the sum raise,
    which the blanket [except] turns into [False]. *)
Lemma allocation_true_ints (attributes : gmap string pyval) :
  validate_attribute_allocation attributes = true →
  ∃ a b c d : Z,
    attributes !! "might" = Some (PInt a) ∧
    attributes !! "agility" = Some (PInt b) ∧
    attributes !! "wits" = Some (PInt c) ∧
    attributes !! "presence" = Some (PInt d).
Proof.
  unfold validate_attribute_allocation, validate_attribute_allocation_body,
    py_in. simpl. unfold getitem.
  destruct (attributes !! "might") as [v1|]; simpl; [|done].
  destruct (attributes !! "agility") as [v2|]; simpl; [|done].
  destruct (attributes !! "wits") as [v3|]; simpl; [|done].
  destruct (attributes !! "presence") as [v4|]; simpl; [|done].
  destruct v1 as [a| | |]; simpl; try done.
  destruct v2 as [b| | |]; simpl; try done.
  destruct v3 as [c| | |]; simpl; try done.
  destruct v4 as [d| | |]; simpl; try done.
  intros _. by exists a, b, c, d.
Qed.

Lemma allocation_true_iff (attributes : gmap string pyval) :
  validate_attribute_allocation attributes = true ↔ allocation_valid attributes.
Proof.
  split.
  - intros Htrue.
    destruct (allocation_true_ints attributes Htrue)
      as (a & b & c & d & Ha & Hb & Hc & Hd).
    unfold validate_attribute_allocation in Htrue.
    rewrite (allocation_body_ints attributes a b c d) in Htrue by done.
    apply bool_decide_eq_true_1 in Htrue.
    exists a, b, c, d. repeat split; first [done | lia].
  - intros (a & b & c & d & Ha & Hb & Hc & Hd & Hrange & Hsum).
    unfold validate_attribute_allocation.
    rewrite (allocation_body_ints attributes a b c d) by done.
    apply bool_decide_eq_true_2. lia.
Qed.

Lemma allocation_false_iff (attributes : gmap string pyval) :
  validate_attribute_allocation attributes = false ↔ ¬ allocation_valid attributes.
Proof.
  rewrite <- allocation_true_iff.
  destruct (validate_attribute_allocation attributes); split; congruence.
Qed.

(** X26: on attribute maps whose values are integers, strings, [None] or
    dictionaries (values of type [float] or [bool] are outside this
    statement) the quick validator always answers with a boolean; the answer
    is [True] exactly when the four attributes are present, are integers in
    [0, 20] and sum to 15; it is [False] when one of the four is missing,
    when the sum is not 15, when the body raises, and in particular when one
    of the four values is a string, [None] or a dictionary. *)
Theorem validate_attribute_allocation_spec (attributes : gmap string pyval) :
  (validate_attribute_allocation attributes = true ↔ allocation_valid attributes) ∧
  (validate_attribute_allocation attributes = false ↔ ¬ allocation_valid attributes) ∧
  (∀ attr, attr ∈ required_attrs → attributes !! attr = None →
     validate_attribute_allocation attributes = false) ∧
  (∀ a b c d : Z,
     attributes !! "might" = Some (PInt a) →
     attributes !! "agility" = Some (PInt b) →
     attributes !! "wits" = Some (PInt c) →
     attributes !! "presence" = Some (PInt d) →
     a + b + c + d ≠ 15 →
     validate_attribute_allocation attributes = false) ∧
  (∀ e, validate_attribute_allocation_body attributes = Raises e →
     validate_attribute_allocation attributes = false) ∧
  (∀ attr v, attr ∈ required_attrs → attributes !! attr = Some v →
     (∀ n, v ≠ PInt n) →
     validate_attribute_allocation attributes = false).
Proof.
  split; [apply allocation_true_iff|].
  split; [apply allocation_false_iff|].
  split; [|split; [|split]].
  - intros attr Hattr Hnone. apply allocation_false_iff.
    intros (a & b & c & d & Ha & Hb & Hc & Hd & _).
    unfold required_attrs in Hattr.
    repeat (apply elem_of_cons in Hattr as [->|Hattr]; [congruence|]).
    by apply elem_of_nil in Hattr.
  - intros a b c d Ha Hb Hc Hd Hsum. apply allocation_false_iff.
    intros (a' & b' & c' & d' & Ha' & Hb' & Hc' & Hd' & _ & Hsum').
    simplify_eq.
  - intros e He. unfold validate_attribute_allocation. by rewrite He.
  - intros attr v Hattr Hv Hnotint. apply allocation_false_iff.
    intros (a & b & c & d & Ha & Hb & Hc & Hd & _).
    unfold required_attrs in Hattr.
    repeat (apply elem_of_cons in Hattr as [->|Hattr];
            [rewrite Hv in *; simplify_eq; by eapply Hnotint|]).
    by apply elem_of_nil in Hattr.
Qed.

(** The repository's three tests of the quick validator, and an input on
    which the body does raise. *)
Example allocation_tests :
  validate_attribute_allocation (PInt <$> valid_attrs) = true ∧
  validate_attribute_allocation (PInt <$> invalid_attrs) = false ∧
  validate_attribute_allocation (delete "presence" (PInt <$> valid_attrs)) = false ∧
  validate_attribute_allocation_body (<["might" := PStr "6"]> (PInt <$> valid_attrs)) =
    Raises TypeError ∧
  validate_attribute_allocation (<["might" := PStr "6"]> (PInt <$> valid_attrs)) = false.
Proof. repeat split; by vm_compute. Qed.

(** ** Further properties of the check resolver *)

Lemma tier_chain_mono (m1 m2 : Z) :
  m1 ≤ m2 →
  outcome_rank (if m1 >=? 5 then STRONG_SUCCESS
                else if m1 >=? 0 then SUCCESS
                else if m1 >=? -2 then NEAR_MISS
                else FAILURE)
  ≤ outcome_rank (if m2 >=? 5 then STRONG_SUCCESS
                  else if m2 >=? 0 then SUCCESS
                  else if m2 >=? -2 then NEAR_MISS
                  else FAILURE).
Proof.
  intros Hle. rewrite !tier_of_margin_spec. unfold tier_of_margin.
  repeat case_decide; simpl; lia.
Qed.

Lemma dice_result_used_range (e : EdgeType) (g : RandomState) :
  1 ≤ dice_result_used e g ≤ 12.
Proof.
  pose proof (nth_roll_range g 0). pose proof (nth_roll_range g 1).
  destruct e; simpl; lia.
Qed.

Lemma dice_result_used_edge_order (g : RandomState) :
  dice_result_used DISADVANTAGE g ≤ dice_result_used NONE g
    ≤ dice_result_used ADVANTAGE g.
Proof. simpl. lia. Qed.

(** X1: from the same generator state and with the same other inputs, a
    check with disadvantage totals at most what the plain check totals, which
    totals at most what the check with advantage totals, and the three
    outcomes are ordered the same way. *)
Theorem edge_orders_totals_and_outcomes (a s d m : Z) (g : RandomState) :
  let dis := (perform_check a s d DISADVANTAGE m g).1 in
  let non := (perform_check a s d NONE m g).1 in
  let adv := (perform_check a s d ADVANTAGE m g).1 in
  total dis ≤ total non ≤ total adv ∧
  outcome_rank (outcome dis) ≤ outcome_rank (outcome non)
    ≤ outcome_rank (outcome adv).
Proof.
  cbn zeta. rewrite !perform_check_unfold. cbn zeta. cbn [fst total outcome].
  pose proof (dice_result_used_edge_order g) as [Hlo Hhi].
  split; [lia|]. split; apply tier_chain_mono; lia.
Qed.

(** X2: with the same rolls, raising the attribute score, the skill score
    or the situational modifier, or lowering the difficulty, never gives a
    worse outcome. *)
Theorem outcome_monotone_in_inputs (a a' s s' d d' m m' : Z) (e : EdgeType)
    (g : RandomState) :
  a ≤ a' → s ≤ s' → m ≤ m' → d' ≤ d →
  total (perform_check a s d e m g).1 ≤ total (perform_check a' s' d' e m' g).1 ∧
  outcome_rank (outcome (perform_check a s d e m g).1)
    ≤ outcome_rank (outcome (perform_check a' s' d' e m' g).1).
Proof.
  intros Ha Hs Hm Hd. rewrite !perform_check_unfold. cbn zeta.
  cbn [fst total outcome].
  assert (calculate_attribute_bonus a ≤ calculate_attribute_bonus a')
    by (apply Z.div_le_mono; lia).
  assert (calculate_skill_rank s ≤ calculate_skill_rank s')
    by (apply Z.div_le_mono; lia).
  split; [lia|]. apply tier_chain_mono. lia.
Qed.

Lemma outcome_monotone_witness :
  total (perform_check 4 4 12 ADVANTAGE 0 (fixed_rolls [3; 7])).1
    ≤ total (perform_check 6 8 11 ADVANTAGE 1 (fixed_rolls [3; 7])).1 ∧
  outcome_rank (outcome (perform_check 4 4 12 ADVANTAGE 0 (fixed_rolls [3; 7])).1)
    ≤ outcome_rank (outcome (perform_check 6 8 11 ADVANTAGE 1 (fixed_rolls [3; 7])).1).
Proof.
  apply (outcome_monotone_in_inputs 4 6 4 8 12 11 0 1 ADVANTAGE (fixed_rolls [3; 7]));
    lia.
Defined.

(** X3: for scores in the nominal range 0 to 20 the total lies between
    1 + modifier and 27 + modifier, so a difficulty of at most modifier - 4
    is always a strong success and a difficulty of at least modifier + 30 is
    always a failure, whatever is rolled. *)
Theorem nominal_scores_bound_total (a s d m : Z) (e : EdgeType) (g : RandomState) :
  0 ≤ a ≤ 20 → 0 ≤ s ≤ 20 →
  let r := (perform_check a s d e m g).1 in
  1 + m ≤ total r ≤ 27 + m ∧
  (d ≤ m - 4 → outcome r = STRONG_SUCCESS) ∧
  (m + 30 ≤ d → outcome r = FAILURE).
Proof.
  intros Ha Hs. cbn zeta. rewrite perform_check_unfold. cbn zeta.
  cbn [fst total outcome].
  pose proof (dice_result_used_range e g).
  pose proof (floor_div_bounds a 2 ltac:(lia)).
  pose proof (floor_div_bounds s 4 ltac:(lia)).
  unfold calculate_attribute_bonus, calculate_skill_rank.
  set (t := dice_result_used e g + a `div` 2 + s `div` 4 + m).
  assert (Ht : 1 + m ≤ t ≤ 27 + m) by (subst t; lia).
  split; [exact Ht|]. rewrite tier_of_margin_spec. unfold tier_of_margin.
  split; intros Hd; repeat case_decide; try lia; reflexivity.
Qed.

Lemma nominal_scores_bound_witness :
  let r := (perform_check 20 20 (-4) DISADVANTAGE 0 (fixed_rolls [1; 1])).1 in
  1 + 0 ≤ total r ≤ 27 + 0 ∧
  (-4 ≤ 0 - 4 → outcome r = STRONG_SUCCESS) ∧
  (0 + 30 ≤ -4 → outcome r = FAILURE).
Proof.
  apply (nominal_scores_bound_total 20 20 (-4) 0 DISADVANTAGE (fixed_rolls [1; 1]));
    lia.
Defined.

Lemma nth_roll_advance (g : RandomState) (k n : nat) :
  nth_roll {| entropy := entropy g; drawn := (drawn g + k)%nat |} n
    = nth_roll g (k + n).
Proof. unfold nth_roll. cbn [drawn entropy]. by rewrite Nat.add_assoc. Qed.

(** X4: a check leaves the generator just past the rolls it recorded, so
    the next check records the rolls that follow: after a first check with
    edge [e1] the second check records the rolls number [rolls_consumed e1]
    onward, and an ADVANTAGE check records exactly the two dice that two
    plain checks in a row record. *)
Theorem successive_checks_read_successive_rolls (a1 s1 d1 m1 a2 s2 d2 m2 : Z)
    (e1 e2 : EdgeType) (g : RandomState) :
  let first := perform_check a1 s1 d1 e1 m1 g in
  let second := perform_check a2 s2 d2 e2 m2 first.2 in
  let k := rolls_consumed e1 in
  dice_rolls second.1 =
    match e2 with
    | NONE => [nth_roll g k]
    | _ => [nth_roll g k; nth_roll g (S k)]
    end ∧
  drawn second.2 = (drawn g + rolls_consumed e1 + rolls_consumed e2)%nat ∧
  (e1 = NONE → e2 = NONE →
     dice_rolls (perform_check a1 s1 d1 ADVANTAGE m1 g).1
       = dice_rolls first.1 ++ dice_rolls second.1).
Proof.
  cbn zeta. rewrite !perform_check_unfold. cbn zeta.
  cbn [fst snd dice_rolls drawn entropy].
  split; [|split].
  - unfold rolls_recorded. rewrite !nth_roll_advance, Nat.add_0_r, Nat.add_1_r.
    by destruct e2.
  - reflexivity.
  - intros -> ->. unfold rolls_recorded. rewrite nth_roll_advance. reflexivity.
Qed.

(** ** Further properties of the creation validator *)

(** The validator either finds the six rules satisfied and returns [True],
    or finds one violated and raises a [ValidationError]. *)
Lemma validate_character_creation_cases (attributes skills : gmap string Z)
    (talents : list (gmap string pyval)) (path_id : string) :
  (validate_character_creation attributes skills talents path_id = Returns true ∧
   attrs_in_range attributes ∧ attr_sum attributes = 15 ∧
   skills_in_range skills ∧ selected_count skills = 3%nat ∧
   length talents = 2%nat ∧ talents_named talents) ∨
  (∃ msg, validate_character_creation attributes skills talents path_id =
            Raises (ValidationError msg)).
Proof.
  destruct (decide (attrs_in_range attributes)) as [H1|H1]; cycle 1.
  { right.
    destruct (phase_attribute_range attributes skills talents path_id H1)
      as (? & ? & ? & _ & _ & [[_ E]|(? & _ & _ & E)]); by eexists. }
  destruct (decide (attr_sum attributes = 15)) as [H2|H2]; cycle 1.
  { right. eexists. by apply phase_attribute_sum. }
  destruct (decide (skills_in_range skills)) as [H3|H3]; cycle 1.
  { right.
    destruct (phase_skill_range attributes skills talents path_id H1 H2 H3)
      as (? & ? & ? & _ & _ & [[_ E]|(? & _ & _ & E)]); by eexists. }
  destruct (decide (selected_count skills = 3%nat)) as [H4|H4]; cycle 1.
  { right. eexists. by apply phase_skill_count. }
  destruct (decide (length talents = 2%nat)) as [H5|H5]; cycle 1.
  { right. eexists. by apply phase_talent_count. }
  rewrite phase_talent_names by done.
  destruct (decide (talents_named talents)) as [H6|H6].
  - left. by rewrite talent_loop_ok.
  - right. rewrite talent_loop_fail by done. by eexists.
Qed.


Lemma for_each_ext {A : Type} (xs : list A) (f g : A → result unit) :
  (∀ x, x ∈ xs → f x = g x) → for_each xs f = for_each xs g.
Proof.
  induction xs as [|x xs IH]; intros Hext; [reflexivity|].
  simpl. rewrite (Hext x) by (by left).
  rewrite IH; [reflexivity|]. intros y Hy. apply Hext. by right.
Qed.

Lemma py_sum_ext {A V : Type} (add : Z → V → result Z) (f g : A → result V)
    (xs : list A) (acc : Z) :
  (∀ x, x ∈ xs → f x = g x) → py_sum add f xs acc = py_sum add g xs acc.
Proof.
  revert acc. induction xs as [|x xs IH]; intros acc Hext; [reflexivity|].
  simpl. rewrite (Hext x) by (by left).
  destruct (g x) as [v|e]; [|reflexivity]. step_result.
  destruct (add acc v) as [acc'|e]; [|reflexivity]. step_result.
  apply IH. intros y Hy. apply Hext. by right.
Qed.

(** X6: the validator reads the attribute map at the four required names
    only, and never reads the path: two candidates whose attribute maps agree
    on might, agility, wits and presence get the same result, so extra
    attribute entries are ignored (unlike extra skill entries). *)
Theorem validate_character_creation_reads_four_attributes
    (attributes attributes' skills : gmap string Z)
    (talents : list (gmap string pyval)) (path_id path_id' : string) :
  (∀ attr, attr ∈ required_attrs → attributes !! attr = attributes' !! attr) →
  validate_character_creation attributes skills talents path_id =
    validate_character_creation attributes' skills talents path_id'.
Proof.
  intros Hagree. rewrite !validate_character_creation_eq.
  rewrite (for_each_ext required_attrs
             (score_check "Missing attribute: " "Attribute " attributes)
             (score_check "Missing attribute: " "Attribute " attributes')).
  - rewrite (py_sum_ext int_add (getitem attributes) (getitem attributes')).
    + reflexivity.
    + intros attr Hattr. unfold getitem. by rewrite Hagree.
  - intros attr Hattr. unfold score_check, py_in, getitem. by rewrite Hagree.
Qed.

Lemma extra_attribute_ignored_witness :
  validate_character_creation (<["luck" := 99]> valid_attrs) valid_skills
      valid_talents "blade" =
    validate_character_creation valid_attrs valid_skills valid_talents "mystic".
Proof.
  apply (validate_character_creation_reads_four_attributes
           (<["luck" := 99]> valid_attrs) valid_attrs valid_skills valid_talents
           "blade" "mystic").
  intros attr Hattr. apply lookup_insert_ne. intros <-.
  revert Hattr. apply (bool_decide_unpack _). vm_compute. exact I.
Defined.

Lemma allocation_valid_ints (attributes : gmap string Z) :
  allocation_valid (PInt <$> attributes) ↔
  attrs_in_range attributes ∧ attr_sum attributes = 15.
Proof.
  unfold allocation_valid, attrs_in_range, required_attrs, attr_sum, score_ok.
  rewrite !Forall_cons, !lookup_total_alt. setoid_rewrite lookup_fmap.
  destruct (attributes !! "might") as [a|];
    destruct (attributes !! "agility") as [b|];
    destruct (attributes !! "wits") as [c|];
    destruct (attributes !! "presence") as [d|]; simpl;
    (split;
     [ intros (a' & b' & c' & d' & Ha & Hb & Hc & Hd & Hrange & Hsum);
       simplify_eq; repeat split; first [lia | constructor]
     | intros ((H1 & H2 & H3 & H4 & _) & Hsum); try done ]).
  exists a, b, c, d. repeat split; first [done | lia].
Qed.

(** X7: on an integer-valued attribute map the quick validator answers
    [True] exactly when the full validator's two attribute rules hold, so
    whenever the full validator accepts a candidate the quick validator
    accepts its attributes, and whenever the quick validator accepts them the
    full validator does not fail on an attribute rule. *)
Theorem quick_validator_agrees_with_attribute_rules
    (attributes skills : gmap string Z) (talents : list (gmap string pyval))
    (path_id : string) :
  (validate_attribute_allocation (PInt <$> attributes) = true ↔
     attrs_in_range attributes ∧ attr_sum attributes = 15) ∧
  (validate_character_creation attributes skills talents path_id = Returns true →
     validate_attribute_allocation (PInt <$> attributes) = true) ∧
  (validate_attribute_allocation (PInt <$> attributes) = true →
     validate_character_creation attributes skills talents path_id =
       validate_character_creation valid_attrs skills talents path_id).
Proof.
  assert (Hiff : validate_attribute_allocation (PInt <$> attributes) = true ↔
                 attrs_in_range attributes ∧ attr_sum attributes = 15).
  { rewrite allocation_true_iff. apply allocation_valid_ints. }
  split; [exact Hiff|]. split.
  - intros Hres. apply Hiff.
    destruct (validate_character_creation_cases attributes skills talents path_id)
      as [(_ & H1 & H2 & _)|[msg E]]; [done|congruence].
  - intros [H1 H2]%Hiff.
    assert (H1' : attrs_in_range valid_attrs)
      by (apply (bool_decide_unpack _); vm_compute; exact I).
    assert (H2' : attr_sum valid_attrs = 15) by (by vm_compute).
    destruct (decide (skills_in_range skills)) as [H3|H3]; cycle 1.
    { rewrite !validate_character_creation_eq.
      rewrite !(score_loop_ok _ _ _ required_attrs) by done. step_result.
      rewrite !attr_sum_computed by done. step_result.
      by rewrite H2, H2'. }
    destruct (decide (selected_count skills = 3%nat)) as [H4|H4]; cycle 1.
    { by rewrite !phase_skill_count. }
    destruct (decide (length talents = 2%nat)) as [H5|H5]; cycle 1.
    { by rewrite !phase_talent_count. }
    by rewrite !phase_talent_names.
Qed.

(** X8: a candidate the validator accepts has a might between 0 and 15, so
    its derived stats are bounded: hit points between 8 and 38, focus
    between 4 and 19, inventory slots between 8 and 23. *)
Theorem accepted_candidate_has_bounded_stats
    (attributes skills : gmap string Z) (talents : list (gmap string pyval))
    (path_id : string) :
  validate_character_creation attributes skills talents path_id = Returns true →
  let might := attributes !!! "might" in
  let wits := attributes !!! "wits" in
  let presence := attributes !!! "presence" in
  0 ≤ might ≤ 15 ∧
  8 ≤ calculate_max_hp might ≤ 38 ∧
  4 ≤ calculate_max_focus wits presence ≤ 19 ∧
  8 ≤ calculate_inventory_slots might ≤ 23.
Proof.
  intros Hres.
  destruct (validate_character_creation_cases attributes skills talents path_id)
    as [(_ & H1 & H2 & _)|[msg E]]; [|congruence].
  revert H1 H2.
  unfold attrs_in_range, required_attrs, attr_sum, score_ok.
  rewrite !Forall_cons, !lookup_total_alt.
  unfold calculate_max_hp, calculate_max_focus, calculate_inventory_slots.
  destruct (attributes !! "might"), (attributes !! "agility"),
    (attributes !! "wits"), (attributes !! "presence"); simpl;
    intros (? & ? & ? & ? & _) ?; try done; lia.
Qed.

Lemma accepted_candidate_stats_witness :
  let might := valid_attrs !!! "might" in
  let wits := valid_attrs !!! "wits" in
  let presence := valid_attrs !!! "presence" in
  0 ≤ might ≤ 15 ∧
  8 ≤ calculate_max_hp might ≤ 38 ∧
  4 ≤ calculate_max_focus wits presence ≤ 19 ∧
  8 ≤ calculate_inventory_slots might ≤ 23.
Proof.
  apply (accepted_candidate_has_bounded_stats
           valid_attrs valid_skills valid_talents "blade").
  vm_compute. reflexivity.
Defined.

(** ** The campaign service and the request schemas *)

Lemma foldl_add_permutation (l l' : list Z) :
  l ≡ₚ l' → ∀ acc, foldl Z.add acc l = foldl Z.add acc l'.
Proof.
  induction 1 as [|x l l' _ IH|x y l|l l' l'' _ IH1 _ IH2]; intros acc; simpl.
  - reflexivity.
  - apply IH.
  - f_equal. lia.
  - by rewrite IH1.
Qed.

Lemma foldl_add_acc (l : list Z) (acc : Z) :
  foldl Z.add acc l = acc + foldl Z.add 0 l.
Proof.
  revert acc. induction l as [|x l IH]; intros acc; simpl; [lia|].
  rewrite (IH (acc + x)), (IH (0 + x)). lia.
Qed.

Lemma py_sum_values_insert (d : gmap string Z) (key : string) (v : Z) :
  d !! key = None →
  py_sum_values (<[key:=v]> d) = v + py_sum_values d.
Proof.
  intros Hfresh. unfold py_sum_values.
  rewrite (foldl_add_permutation _ (v :: (map_to_list d).*2)).
  - simpl. apply foldl_add_acc.
  - by rewrite (map_to_list_insert d key v Hfresh).
Qed.

Lemma py_sum_values_empty : py_sum_values ∅ = 0.
Proof. unfold py_sum_values. by rewrite map_to_list_empty. Qed.

(** The sum over the attribute dictionary that the service builds is the
    [total] property of the schema. *)
Lemma attributes_dict_sum (a : AttributeScores.t) :
  py_sum_values
    {[ "might" := AttributeScores.might a;
       "agility" := AttributeScores.agility a;
       "wits" := AttributeScores.wits a;
       "presence" := AttributeScores.presence a ]}
  = AttributeScores.total a.
Proof.
  rewrite !py_sum_values_insert by (by vm_compute).
  unfold AttributeScores.total.
  change (py_sum_values {["presence" := AttributeScores.presence a]})
    with (py_sum_values (<["presence" := AttributeScores.presence a]> ∅)).
  rewrite py_sum_values_insert, py_sum_values_empty by done. lia.
Qed.

Lemma create_campaign_character_eq (validate_template : string → bool)
    (request : CreateCampaignRequest.t) :
  let c := CreateCampaignRequest.character request in
  let a := CharacterCreate.attributes c in
  let tid := CreateCampaignRequest.template_id request in
  let count := selected_count (SkillsDict.model_dump (CharacterCreate.skills c)) in
  create_campaign_character validate_template request =
    if negb (validate_template tid) then
      Failed (CampaignCreationError ("Invalid template_id: " +:+ tid))
    else if negb (AttributeScores.total a =? 15) then
      Failed (CampaignCreationError
        ("Attributes must sum to 15, got " +:+ pretty (AttributeScores.total a)))
    else if negb (count =? 3)%nat then
      Failed (CampaignCreationError
        ("Must select exactly 3 skills, got " +:+ pretty count))
    else if negb (length (CharacterCreate.talent_ids c) =? 2)%nat then
      Failed (CampaignCreationError
        ("Must select exactly 2 talents, got "
         +:+ pretty (length (CharacterCreate.talent_ids c))))
    else
      Finished {|
        Character.name := CharacterCreate.name c;
        Character.origin := CharacterCreate.origin_id c;
        Character.path := CharacterCreate.path_id c;
        Character.might_score := AttributeScores.might a;
        Character.agility_score := AttributeScores.agility a;
        Character.wits_score := AttributeScores.wits a;
        Character.presence_score := AttributeScores.presence a;
        Character.current_hp := calculate_max_hp (AttributeScores.might a);
        Character.max_hp := calculate_max_hp (AttributeScores.might a);
        Character.current_focus :=
          calculate_max_focus (AttributeScores.wits a) (AttributeScores.presence a);
        Character.max_focus :=
          calculate_max_focus (AttributeScores.wits a) (AttributeScores.presence a);
        Character.supplies := 3;
        Character.skills := SkillsDict.model_dump (CharacterCreate.skills c)
      |}.
Proof.
  cbn zeta. unfold create_campaign_character, selected_count.
  rewrite attributes_dict_sum, length_fmap. reflexivity.
Qed.


(** X10: every character that [create_campaign] builds starts at full hit
    points and full focus, computed by the rules engine's formulas, with 3
    supplies, attribute scores that sum to 15, and exactly 3 positive skills
    among the ten it stores. *)
Theorem created_character_invariants (validate_template : string → bool)
    (request : CreateCampaignRequest.t) (ch : Character.t) :
  create_campaign_character validate_template request = Finished ch →
  Character.current_hp ch = Character.max_hp ch ∧
  Character.max_hp ch = 8 + 2 * Character.might_score ch ∧
  Character.current_focus ch = Character.max_focus ch ∧
  Character.max_focus ch = 4 + Character.wits_score ch + Character.presence_score ch ∧
  Character.supplies ch = 3 ∧
  Character.might_score ch + Character.agility_score ch
    + Character.wits_score ch + Character.presence_score ch = 15 ∧
  size (Character.skills ch) = 10%nat ∧
  selected_count (Character.skills ch) = 3%nat.
Proof.
  rewrite create_campaign_character_eq. cbn zeta.
  destruct (validate_template _); cbn [negb]; [|intros [=]].
  destruct (Z.eqb_spec (AttributeScores.total
              (CharacterCreate.attributes (CreateCampaignRequest.character request))) 15)
    as [Hsum|]; cbn [negb]; [|intros [=]].
  destruct (Nat.eqb_spec (selected_count (SkillsDict.model_dump
              (CharacterCreate.skills (CreateCampaignRequest.character request)))) 3)
    as [Hcount|]; cbn [negb]; [|intros [=]].
  destruct (Nat.eqb_spec (length (CharacterCreate.talent_ids
              (CreateCampaignRequest.character request))) 2); cbn [negb]; [|intros [=]].
  intros [= <-]. cbn [Character.current_hp Character.max_hp Character.current_focus
    Character.max_focus Character.supplies Character.might_score
    Character.agility_score Character.wits_score Character.presence_score
    Character.skills].
  unfold calculate_max_hp, calculate_max_focus.
  unfold AttributeScores.total in Hsum.
  split; [reflexivity|]. split; [lia|]. split; [reflexivity|].
  split; [reflexivity|]. split; [reflexivity|]. split; [exact Hsum|].
  split; [|exact Hcount].
  unfold SkillsDict.model_dump.
  rewrite !map_size_insert_None by (by vm_compute). by rewrite map_size_singleton.
Qed.

Lemma starting_skills_count (v : SkillsDict.t) :
  CharacterCreate.validate_starting_skills v = Finished v →
  selected_count (SkillsDict.model_dump v) = 3%nat.
Proof.
  unfold CharacterCreate.validate_starting_skills, selected_count.
  rewrite length_fmap.
  destruct (Nat.eqb_spec
    (length (filter (λ item : string * Z, 0 < item.2)
       (map_to_list (SkillsDict.model_dump v)))) 3) as [->|];
    cbn [negb]; [done|intros [=]].
Qed.

Lemma attribute_total_sum (v : AttributeScores.t) :
  CharacterCreate.validate_attribute_total v = Finished v →
  AttributeScores.total v = 15.
Proof.
  unfold CharacterCreate.validate_attribute_total. cbn zeta.
  destruct (Z.eqb_spec (AttributeScores.total v) 15); cbn [negb];
    [done|intros [=]].
Qed.

(** X11: a request whose character passed the two validators of the
    schema, carries two talent ids and has its scores in the declared ranges
    cannot fail the service's own sum, skill and talent checks.  With an
    invalid template [create_campaign] raises "Invalid template_id";
    with a valid one the checks made before the database is touched all
    pass (the derived hit points lie between 8 and 38, the focus between 4
    and 19) and the result is whatever the [try] block gives: a
    [CampaignCreationError] of the block as it is, the error
    "Failed to create campaign: e" when a database or narration step raises
    another exception e, the response otherwise. *)
Theorem schema_validated_request_passes_service_checks
    (validate_template : string → bool) (request : CreateCampaignRequest.t) :
  let c := CreateCampaignRequest.character request in
  let tid := CreateCampaignRequest.template_id request in
  CharacterCreate.validate_attribute_total (CharacterCreate.attributes c)
    = Finished (CharacterCreate.attributes c) →
  CharacterCreate.validate_starting_skills (CharacterCreate.skills c)
    = Finished (CharacterCreate.skills c) →
  length (CharacterCreate.talent_ids c) = 2%nat →
  AttributeScores.field_constraints (CharacterCreate.attributes c) →
  (validate_template tid = false →
     create_campaign_character validate_template request =
       Failed (CampaignCreationError ("Invalid template_id: " +:+ tid)) ∧
     ∀ try_block,
       create_campaign validate_template try_block request =
         Failed (CampaignCreationError ("Invalid template_id: " +:+ tid))) ∧
  (validate_template tid = true →
     ∃ ch, create_campaign_character validate_template request = Finished ch ∧
       8 ≤ Character.max_hp ch ≤ 38 ∧ 4 ≤ Character.max_focus ch ≤ 19 ∧
       ∀ try_block,
         create_campaign validate_template try_block request =
           match try_block request ch with
           | BlockRaisedCreationError message =>
               Failed (CampaignCreationError message)
           | BlockRaised message =>
               Failed (CampaignCreationError
                 ("Failed to create campaign: " +:+ message))
           | BlockReturned response => Finished response
           end).
Proof.
  intros c tid Hsum%attribute_total_sum Hcount%starting_skills_count Htal Hrange.
  unfold create_campaign.
  rewrite create_campaign_character_eq. cbn zeta. fold c tid.
  rewrite Hsum, Hcount, Htal. cbn [Z.eqb Pos.eqb Nat.eqb negb].
  split; intros ->; cbn [negb]; [split; [reflexivity|intros; reflexivity]|].
  eexists. split; [reflexivity|].
  cbn [Character.max_hp Character.max_focus].
  unfold calculate_max_hp, calculate_max_focus.
  unfold AttributeScores.total in Hsum.
  destruct Hrange as (? & ? & ? & ?).
  split; [lia|]. split; [lia|]. intros try_block. reflexivity.
Qed.

Lemma schema_validated_request_witness :
  ((λ _ : string, true) "broken_kingdom" = false →
     create_campaign_character (λ _, true) kael_request =
       Failed (CampaignCreationError ("Invalid template_id: " +:+ "broken_kingdom")) ∧
     ∀ try_block,
       create_campaign (λ _, true) try_block kael_request =
         Failed (CampaignCreationError
           ("Invalid template_id: " +:+ "broken_kingdom"))) ∧
  ((λ _ : string, true) "broken_kingdom" = true →
     ∃ ch, create_campaign_character (λ _, true) kael_request = Finished ch ∧
       8 ≤ Character.max_hp ch ≤ 38 ∧ 4 ≤ Character.max_focus ch ≤ 19 ∧
       ∀ try_block,
         create_campaign (λ _, true) try_block kael_request =
           match try_block kael_request ch with
           | BlockRaisedCreationError message =>
               Failed (CampaignCreationError message)
           | BlockRaised message =>
               Failed (CampaignCreationError
                 ("Failed to create campaign: " +:+ message))
           | BlockReturned response => Finished response
           end).
Proof.
  apply (schema_validated_request_passes_service_checks (λ _, true) kael_request).
  - by vm_compute.
  - by vm_compute.
  - reflexivity.
  - unfold AttributeScores.field_constraints. simpl. lia.
Defined.

Lemma schema_dump_lacks_engine_names (v : SkillsDict.t) (skill : string) :
  skill ∈ required_skills → SkillsDict.model_dump v !! skill = None.
Proof.
  unfold required_skills. intros Hskill.
  repeat (apply elem_of_cons in Hskill as [->|Hskill]; [by vm_compute|]).
  by apply elem_of_nil in Hskill.
Qed.

(** X12: the schema names its skills in lower case and the rules engine
    requires capitalised names, so [validate_character_creation] (which the
    campaign service imports) rejects the dump of every [SkillsDict]: once
    the attribute rules hold, the result is "Missing skill: Blade", whatever
    the scores and talents are. *)
Theorem engine_validator_rejects_every_schema_dump (attributes : gmap string Z)
    (v : SkillsDict.t) (talents : list (gmap string pyval)) (path_id : string) :
  attrs_in_range attributes →
  attr_sum attributes = 15 →
  validate_character_creation attributes (SkillsDict.model_dump v) talents path_id =
    Raises (ValidationError "Missing skill: Blade").
Proof.
  intros H1 H2. rewrite validate_character_creation_eq.
  rewrite (score_loop_ok _ _ attributes) by exact H1. step_result.
  rewrite attr_sum_computed by done. step_result.
  rewrite H2. cbn [Z.eqb Pos.eqb negb].
  change required_skills with ([] ++ "Blade" :: tail required_skills).
  rewrite (for_each_first_failure [] _ "Blade" _
             (ValidationError "Missing skill: Blade")); [reflexivity|constructor|].
  unfold score_check, py_in.
  rewrite schema_dump_lacks_engine_names; [reflexivity|]. by left.
Qed.

Lemma engine_validator_rejects_dump_witness :
  validate_character_creation valid_attrs
      (SkillsDict.model_dump (SkillsDict.mk 8 0 0 4 0 0 0 0 4 0))
      valid_talents "blade" =
    Raises (ValidationError "Missing skill: Blade").
Proof.
  apply (engine_validator_rejects_every_schema_dump valid_attrs
           (SkillsDict.mk 8 0 0 4 0 0 0 0 4 0) valid_talents "blade").
  - apply (bool_decide_unpack _). vm_compute. exact I.
  - vm_compute. reflexivity.
Defined.

(** X13: the character that [create_campaign] builds stores its skills
    under the schema's lower-case names, so [Character.get_skill_rank] gives
    floor(score/4) for "blade", "bow" and so on, and 0 for each of the ten
    capitalised names of the rules engine. *)
Theorem created_character_skill_ranks (validate_template : string → bool)
    (request : CreateCampaignRequest.t) (ch : Character.t) :
  create_campaign_character validate_template request = Finished ch →
  let v := CharacterCreate.skills (CreateCampaignRequest.character request) in
  Character.get_skill_rank ch "blade" = calculate_skill_rank (SkillsDict.blade v) ∧
  Character.get_skill_rank ch "sneak" = calculate_skill_rank (SkillsDict.sneak v) ∧
  Character.get_skill_rank ch "channel" = calculate_skill_rank (SkillsDict.channel v) ∧
  (∀ skill, skill ∈ required_skills → Character.get_skill_rank ch skill = 0).
Proof.
  intros Hch v.
  assert (Hskills : Character.skills ch = SkillsDict.model_dump v).
  { revert Hch. rewrite create_campaign_character_eq. cbn zeta.
    repeat (match goal with
            | |- context [if negb ?b then _ else _] => destruct b; cbn [negb]
            end; [|intros [=]]).
    by intros [= <-]. }
  unfold Character.get_skill_rank. cbn zeta. rewrite Hskills.
  split; [reflexivity|]. split; [reflexivity|]. split; [reflexivity|].
  intros skill Hskill. by rewrite schema_dump_lacks_engine_names.
Qed.

Lemma kael_character_created :
  create_campaign_character (λ _, true) kael_request = Finished kael_character.
Proof. by vm_compute. Qed.

Lemma created_character_skill_ranks_witness :
  let v := CharacterCreate.skills (CreateCampaignRequest.character kael_request) in
  Character.get_skill_rank kael_character "blade"
    = calculate_skill_rank (SkillsDict.blade v) ∧
  Character.get_skill_rank kael_character "sneak"
    = calculate_skill_rank (SkillsDict.sneak v) ∧
  Character.get_skill_rank kael_character "channel"
    = calculate_skill_rank (SkillsDict.channel v) ∧
  (∀ skill, skill ∈ required_skills →
     Character.get_skill_rank kael_character skill = 0).
Proof.
  exact (created_character_skill_ranks (λ _, true) kael_request kael_character
           kael_character_created).
Defined.

Lemma created_character_invariants_witness :
  Character.current_hp kael_character = Character.max_hp kael_character ∧
  Character.max_hp kael_character = 8 + 2 * Character.might_score kael_character ∧
  Character.current_focus kael_character = Character.max_focus kael_character ∧
  Character.max_focus kael_character =
    4 + Character.wits_score kael_character + Character.presence_score kael_character ∧
  Character.supplies kael_character = 3 ∧
  Character.might_score kael_character + Character.agility_score kael_character
    + Character.wits_score kael_character + Character.presence_score kael_character
    = 15 ∧
  size (Character.skills kael_character) = 10%nat ∧
  selected_count (Character.skills kael_character) = 3%nat.
Proof.
  exact (created_character_invariants (λ _, true) kael_request kael_character
           kael_character_created).
Defined.

(** X14: the character model computes its attribute bonuses and skill
    ranks as the rules engine does (a skill that is not stored ranks 0), but
    its [inventory_slots] is floor(might/2) where the engine's
    [calculate_inventory_slots] is 8 + might: the two agree only for a might
    of -16 or -17, and for a might of 0 or more the model's value is lower by
    at least 8. *)
Theorem character_model_against_engine (ch : Character.t) (skill_name : string) :
  Character.effective_might_bonus ch
    = calculate_attribute_bonus (Character.might_score ch) ∧
  Character.effective_agility_bonus ch
    = calculate_attribute_bonus (Character.agility_score ch) ∧
  Character.effective_wits_bonus ch
    = calculate_attribute_bonus (Character.wits_score ch) ∧
  Character.effective_presence_bonus ch
    = calculate_attribute_bonus (Character.presence_score ch) ∧
  (∀ score, Character.skills ch !! skill_name = Some score →
     Character.get_skill_rank ch skill_name = calculate_skill_rank score) ∧
  (Character.skills ch !! skill_name = None →
     Character.get_skill_rank ch skill_name = 0) ∧
  (Character.inventory_slots ch = calculate_inventory_slots (Character.might_score ch)
     ↔ Character.might_score ch = -16 ∨ Character.might_score ch = -17) ∧
  (0 ≤ Character.might_score ch →
     Character.inventory_slots ch + 8
       ≤ calculate_inventory_slots (Character.might_score ch)).
Proof.
  unfold Character.get_skill_rank, Character.inventory_slots,
    calculate_inventory_slots. cbn zeta.
  pose proof (floor_div_bounds (Character.might_score ch) 2 ltac:(lia)).
  repeat apply conj; try reflexivity.
  - by intros score ->.
  - by intros ->.
  - lia.
  - lia.
  - lia.
Qed.

(** ** The D&D rules helper *)

Lemma ability_modifier_in_table (score : Z) :
  1 ≤ score ≤ 20 → DnDRules.get_ability_modifier score = (score - 10) `div` 2.
Proof.
  intros Hrange. set (n := Z.to_nat score).
  assert (Hn : score = Z.of_nat n) by lia.
  assert (Hle : (n ≤ 20)%nat) by lia.
  clearbody n. subst score.
  do 21 (destruct n as [|n]; [first [lia | by vm_compute]|]). lia.
Qed.

Lemma ability_modifier_off_table (score : Z) :
  score < 1 ∨ 20 < score → DnDRules.get_ability_modifier score = 0.
Proof.
  intros Hout. unfold DnDRules.get_ability_modifier, DnDRules.ability_modifier_map.
  rewrite (not_elem_of_list_to_map_1 _ score); [reflexivity|].
  cbn [fmap list_fmap fst]. rewrite !not_elem_of_cons.
  repeat split; try lia. apply not_elem_of_nil.
Qed.

Lemma ability_modifier_range (score : Z) :
  -5 ≤ DnDRules.get_ability_modifier score ≤ 5.
Proof.
  destruct (decide (1 ≤ score ≤ 20)) as [Hin|Hout].
  - rewrite ability_modifier_in_table by done.
    pose proof (floor_div_bounds (score - 10) 2 ltac:(lia)). lia.
  - rewrite ability_modifier_off_table by lia. lia.
Qed.

(** X15: for scores 1 to 20 the ability modifier table is
    floor((score - 10) / 2); every other score, however high, gets modifier
    0, so the modifier always lies between -5 and 5 and drops from 5 to 0
    when a score passes from 20 to 21. *)
Theorem ability_modifier_table (score : Z) :
  (1 ≤ score ≤ 20 → DnDRules.get_ability_modifier score = (score - 10) `div` 2) ∧
  (score < 1 ∨ 20 < score → DnDRules.get_ability_modifier score = 0) ∧
  -5 ≤ DnDRules.get_ability_modifier score ≤ 5 ∧
  DnDRules.get_ability_modifier 21 < DnDRules.get_ability_modifier 20.
Proof.
  split; [apply ability_modifier_in_table|].
  split; [apply ability_modifier_off_table|].
  split; [apply ability_modifier_range|]. by vm_compute.
Qed.

(** X16: the proficiency bonus is between 2 and 6 for every level, never
    decreases as the level rises, and for levels 1 to 20 equals
    2 + floor((level - 1) / 4). *)
Theorem proficiency_bonus_steps (level level' : Z) :
  2 ≤ DnDRules.get_proficiency_bonus level ≤ 6 ∧
  (level ≤ level' →
     DnDRules.get_proficiency_bonus level ≤ DnDRules.get_proficiency_bonus level') ∧
  (1 ≤ level ≤ 20 →
     DnDRules.get_proficiency_bonus level = 2 + (level - 1) `div` 4).
Proof.
  unfold DnDRules.get_proficiency_bonus.
  pose proof (floor_div_bounds (level - 1) 4 ltac:(lia)).
  destruct (Z.geb_spec level 17), (Z.geb_spec level 13), (Z.geb_spec level 9),
    (Z.geb_spec level 5); try lia;
    (split; [lia|]; split; [|lia]; intros Hle;
     destruct (Z.geb_spec level' 17), (Z.geb_spec level' 13),
       (Z.geb_spec level' 9), (Z.geb_spec level' 5); lia).
Qed.

Lemma nth_d20_range (g : RandomState) (n : nat) : 1 ≤ nth_d20 g n ≤ 20.
Proof.
  unfold nth_d20.
  pose proof (Z.mod_pos_bound (entropy g (drawn g + n)%nat) 20). lia.
Qed.

(** X17: an ability check rolls two d20 and keeps the higher one with
    advantage only, keeps the lower one with disadvantage only, and rolls a
    single d20 when neither or both flags are set (the two cancel).  The die
    kept is between 1 and 20, the total is the die plus the ability modifier
    plus the proficiency bonus, and the check succeeds exactly when the total
    reaches the difficulty class. *)
Theorem ability_check_edges (ability_score proficiency_bonus difficulty_class : Z)
    (advantage disadvantage : bool) (g : RandomState) :
  let r := (DnDRules.make_ability_check ability_score proficiency_bonus
              difficulty_class advantage disadvantage g).1 in
  let g' := (DnDRules.make_ability_check ability_score proficiency_bonus
               difficulty_class advantage disadvantage g).2 in
  DnDRules.result r =
    (if advantage && negb disadvantage then Z.max (nth_d20 g 0) (nth_d20 g 1)
     else if disadvantage && negb advantage then Z.min (nth_d20 g 0) (nth_d20 g 1)
     else nth_d20 g 0) ∧
  drawn g' = (drawn g + (if xorb advantage disadvantage then 2 else 1))%nat ∧
  1 ≤ DnDRules.result r ≤ 20 ∧
  DnDRules.total r =
    DnDRules.result r + DnDRules.get_ability_modifier ability_score
    + proficiency_bonus ∧
  (DnDRules.success r = true ↔ difficulty_class ≤ DnDRules.total r) ∧
  DnDRules.dc r = difficulty_class.
Proof.
  cbn zeta.
  pose proof (nth_d20_range g 0) as H0. pose proof (nth_d20_range g 1) as H1.
  unfold DnDRules.make_ability_check, mbind, mret, Rand_bind, Rand_ret, randint.
  unfold nth_d20 in *.
  destruct advantage, disadvantage;
    cbn [andb negb xorb fst snd drawn entropy DnDRules.result DnDRules.total
         DnDRules.success DnDRules.dc];
    rewrite ?Nat.add_0_r, ?Nat.add_1_r in *;
    change (20 - 1 + 1) with 20;
    (split; [reflexivity|]; split; [lia|]; split; [lia|];
     split; [lia|]; split; [rewrite Z.geb_le; lia|reflexivity]).
Qed.

Ltac decide_armor armor_type :=
  destruct (decide (armor_type = "leather_armor")) as [->|?];
  [|destruct (decide (armor_type = "no_armor")) as [->|?];
    [|destruct (decide (armor_type = "chain_mail")) as [->|?];
      [|destruct (decide (armor_type = "plate_armor")) as [->|?]]]].

Lemma armor_class_unknown (dexterity : Z) (armor_type : string) :
  armor_type ∉ ["leather_armor"; "chain_mail"; "plate_armor"; "no_armor"] →
  DnDRules.calculate_armor_class dexterity armor_type = 10.
Proof.
  rewrite !not_elem_of_cons. intros (H1 & H2 & H3 & H4 & _).
  unfold DnDRules.calculate_armor_class. cbn zeta.
  rewrite !lookup_insert_ne by done.
  rewrite ?lookup_singleton_ne by done. rewrite ?lookup_empty. cbn [default].
  rewrite (bool_decide_eq_false_2 (armor_type ∈ _)).
  - by rewrite bool_decide_eq_false_2.
  - rewrite !elem_of_cons, elem_of_nil. tauto.
Qed.

(** X18: the armour class is always between 5 and 18.  Leather gives 11
    plus the dexterity modifier, no armour 10 plus it, chain mail 16 plus at
    most 2 of it, plate 18 whatever the dexterity, and an armour type that is
    none of the four gives 10 whatever the dexterity. *)
Theorem armor_class_by_type (dexterity : Z) (armor_type : string) :
  let dex_mod := DnDRules.get_ability_modifier dexterity in
  5 ≤ DnDRules.calculate_armor_class dexterity armor_type ≤ 18 ∧
  DnDRules.calculate_armor_class dexterity "leather_armor" = 11 + dex_mod ∧
  DnDRules.calculate_armor_class dexterity "no_armor" = 10 + dex_mod ∧
  DnDRules.calculate_armor_class dexterity "chain_mail" = 16 + Z.min dex_mod 2 ∧
  DnDRules.calculate_armor_class dexterity "plate_armor" = 18 ∧
  (armor_type ∉ ["leather_armor"; "chain_mail"; "plate_armor"; "no_armor"] →
     DnDRules.calculate_armor_class dexterity armor_type = 10).
Proof.
  cbn zeta. pose proof (ability_modifier_range dexterity) as Hmod.
  assert (Hl : DnDRules.calculate_armor_class dexterity "leather_armor"
               = 11 + DnDRules.get_ability_modifier dexterity) by reflexivity.
  assert (Hn : DnDRules.calculate_armor_class dexterity "no_armor"
               = 10 + DnDRules.get_ability_modifier dexterity) by reflexivity.
  assert (Hc : DnDRules.calculate_armor_class dexterity "chain_mail"
               = 16 + Z.min (DnDRules.get_ability_modifier dexterity) 2)
    by reflexivity.
  assert (Hp : DnDRules.calculate_armor_class dexterity "plate_armor" = 18)
    by reflexivity.
  split; [|split; [exact Hl|split; [exact Hn|split; [exact Hc|split; [exact Hp|]]]]].
  - decide_armor armor_type; try lia.
    rewrite armor_class_unknown; [lia|].
    rewrite !not_elem_of_cons. repeat split; try done. apply not_elem_of_nil.
  - apply armor_class_unknown.
Qed.

Lemma foldl_insert_lookup (f : string → Z → Z) (l : list (string * Z))
    (acc : gmap string Z) (key : string) :
  NoDup l.*1 →
  foldl (λ m (item : string * Z), <[item.1 := f item.1 item.2]> m) acc l !! key =
    match list_find (λ item : string * Z, item.1 = key) l with
    | Some (_, item) => Some (f key item.2)
    | None => acc !! key
    end.
Proof.
  revert acc. induction l as [|[k v] l IH]; intros acc Hnodup; [reflexivity|].
  cbn [foldl fst snd]. apply NoDup_cons in Hnodup as [Hk Hl].
  rewrite IH by done. cbn [list_find]. cbn [fst].
  destruct (decide (k = key)) as [->|Hne].
  - cbn [snd]. destruct (list_find _ l) as [[i [k' v']]|] eqn:Efind.
    + apply list_find_Some in Efind as (Hi & Hk' & _). cbn in Hk'. subst k'.
      destruct Hk. apply list_elem_of_fmap. exists (key, v').
      split; [done|]. eapply list_elem_of_lookup_2. exact Hi.
    + apply lookup_insert_eq.
  - destruct (list_find _ l) as [[i [k' v']]|]; cbn [fmap option_fmap option_map];
      [reflexivity|]. by apply lookup_insert_ne.
Qed.

(** X19: the saving throws have exactly the abilities of the stats: each
    ability's throw is the modifier of its score, plus the proficiency bonus
    when the class is proficient in that ability (rogue: dexterity and
    intelligence; fighter: strength and constitution; wizard: intelligence
    and wisdom; cleric: wisdom and charisma); any other class is proficient
    in nothing. *)
Theorem saving_throws_by_ability (stats : gmap string Z) (character_class : string)
    (proficiency_bonus : Z) (ability : string) :
  let proficient_saves :=
    if bool_decide (character_class = "rogue") then ["dexterity"; "intelligence"]
    else if bool_decide (character_class = "fighter") then ["strength"; "constitution"]
    else if bool_decide (character_class = "wizard") then ["intelligence"; "wisdom"]
    else if bool_decide (character_class = "cleric") then ["wisdom"; "charisma"]
    else [] in
  DnDRules.calculate_saving_throws stats character_class proficiency_bonus !! ability =
    (λ score,
       if bool_decide (ability ∈ proficient_saves)
       then DnDRules.get_ability_modifier score + proficiency_bonus
       else DnDRules.get_ability_modifier score) <$> stats !! ability.
Proof.
  cbn zeta.
  assert (Hprof :
    default [] (({[ "rogue" := ["dexterity"; "intelligence"];
                    "fighter" := ["strength"; "constitution"];
                    "wizard" := ["intelligence"; "wisdom"];
                    "cleric" := ["wisdom"; "charisma"] ]} : gmap string (list string))
                !! character_class) =
    (if bool_decide (character_class = "rogue") then ["dexterity"; "intelligence"]
     else if bool_decide (character_class = "fighter") then ["strength"; "constitution"]
     else if bool_decide (character_class = "wizard") then ["intelligence"; "wisdom"]
     else if bool_decide (character_class = "cleric") then ["wisdom"; "charisma"]
     else [])).
  { repeat (case_bool_decide; [subst character_class; by vm_compute|]).
    rewrite !lookup_insert_ne by done.
    rewrite ?lookup_singleton_ne by done. by rewrite ?lookup_empty. }
  unfold DnDRules.calculate_saving_throws. cbn zeta. rewrite Hprof.
  set (prof := if bool_decide (character_class = "rogue") then _ else _).
  pose proof (foldl_insert_lookup
                (λ ability score,
                   if bool_decide (ability ∈ prof)
                   then DnDRules.get_ability_modifier score + proficiency_bonus
                   else DnDRules.get_ability_modifier score)
                (map_to_list stats) ∅ ability (NoDup_fst_map_to_list stats))
    as Hfold.
  cbv beta in Hfold. rewrite Hfold. clear Hfold.
  destruct (list_find _ (map_to_list stats)) as [[i [k v]]|] eqn:Efind.
  - apply list_find_Some in Efind as (Hi & Hk & _). cbn in Hk. subst k.
    apply list_elem_of_lookup_2, elem_of_map_to_list in Hi. by rewrite Hi.
  - rewrite lookup_empty. apply list_find_None in Efind.
    destruct (stats !! ability) as [v|] eqn:E; [|reflexivity].
    apply elem_of_map_to_list in E. rewrite Forall_forall in Efind.
    by destruct (Efind _ E).
Qed.

Lemma hit_die_range (character_class : string) :
  let class_hit_dice : gmap string Z :=
    {[ "rogue" := 8; "fighter" := 10; "wizard" := 6; "cleric" := 8 ]} in
  6 ≤ default 8 (class_hit_dice !! character_class) ≤ 10 ∧
  (character_class ∉ ["rogue"; "fighter"; "wizard"; "cleric"] →
     default 8 (class_hit_dice !! character_class) = 8).
Proof.
  cbn zeta.
  destruct (decide (character_class = "rogue")) as [->|H1];
    [split; [vm_compute; split; discriminate|];
     intros Hn; destruct Hn; apply (bool_decide_unpack _); by vm_compute|].
  destruct (decide (character_class = "fighter")) as [->|H2];
    [split; [vm_compute; split; discriminate|];
     intros Hn; destruct Hn; apply (bool_decide_unpack _); by vm_compute|].
  destruct (decide (character_class = "wizard")) as [->|H3];
    [split; [vm_compute; split; discriminate|];
     intros Hn; destruct Hn; apply (bool_decide_unpack _); by vm_compute|].
  destruct (decide (character_class = "cleric")) as [->|H4];
    [split; [vm_compute; split; discriminate|];
     intros Hn; destruct Hn; apply (bool_decide_unpack _); by vm_compute|].
  rewrite !lookup_insert_ne by done.
  rewrite ?lookup_singleton_ne by done. rewrite ?lookup_empty. cbn [default].
  split; [lia|done].
Qed.

(** X20: the starting health is the dictionary with the three entries
    current, maximum and temporary, where current and maximum both are the
    class hit die (rogue 8, fighter 10, wizard 6, cleric 8, and 8 for any
    other class) plus the constitution modifier, and temporary is 0; that
    starting value always lies between 1 and 15. *)
Theorem starting_health_entries (character_class : string) (constitution : Z) :
  let health := DnDRules.calculate_starting_health character_class constitution in
  let hit_die :=
    if bool_decide (character_class = "rogue") then 8
    else if bool_decide (character_class = "fighter") then 10
    else if bool_decide (character_class = "wizard") then 6
    else if bool_decide (character_class = "cleric") then 8
    else 8 in
  let hp := hit_die + DnDRules.get_ability_modifier constitution in
  health = {[ "current" := hp; "maximum" := hp; "temporary" := 0 ]} ∧
  health !! "current" = Some hp ∧
  health !! "maximum" = Some hp ∧
  health !! "temporary" = Some 0 ∧
  dom health = {["current"; "maximum"; "temporary"]} ∧
  1 ≤ hp ≤ 15 ∧
  (character_class ∉ ["rogue"; "fighter"; "wizard"; "cleric"] →
     hp = 8 + DnDRules.get_ability_modifier constitution).
Proof.
  cbn zeta.
  assert (Hdie :
    default 8 (({[ "rogue" := 8; "fighter" := 10; "wizard" := 6; "cleric" := 8 ]}
                : gmap string Z) !! character_class) =
    (if bool_decide (character_class = "rogue") then 8
     else if bool_decide (character_class = "fighter") then 10
     else if bool_decide (character_class = "wizard") then 6
     else if bool_decide (character_class = "cleric") then 8
     else 8)).
  { repeat (case_bool_decide; [subst character_class; by vm_compute|]).
    rewrite !lookup_insert_ne by done.
    rewrite ?lookup_singleton_ne by done. by rewrite ?lookup_empty. }
  unfold DnDRules.calculate_starting_health. cbn zeta. rewrite Hdie.
  set (hit_die := if bool_decide (character_class = "rogue") then _ else _).
  assert (Hrange : 6 ≤ hit_die ≤ 10)
    by (subst hit_die; repeat case_bool_decide; lia).
  pose proof (ability_modifier_range constitution).
  split; [reflexivity|].
  split; [by rewrite lookup_insert_eq|].
  split; [by rewrite lookup_insert_ne, lookup_insert_eq|].
  split; [by rewrite !lookup_insert_ne, lookup_singleton_eq|].
  split; [|split; [lia|]].
  - rewrite !dom_insert_L, dom_singleton_L. set_solver.
  - rewrite !not_elem_of_cons. intros (H1 & H2 & H3 & H4 & _).
    subst hit_die. by rewrite !bool_decide_eq_false_2 by done.
Qed.



(** ** The game data service *)

Lemma get_talent_by_id_Some (load_talents : list GameData.Talent)
    (talent_id : string) (talent : GameData.Talent) :
  GameData.get_talent_by_id load_talents talent_id = Some talent ↔
  ∃ before after,
    load_talents = before ++ talent :: after ∧
    GameData.id talent = talent_id ∧
    Forall (λ other, GameData.id other ≠ talent_id) before.
Proof.
  induction load_talents as [|t rest IH]; simpl.
  - split; [done|]. intros (before & after & Heq & _). by destruct before.
  - case_bool_decide as Hid.
    + split.
      * intros [= ->]. exists [], rest. by repeat split.
      * intros ([|t' before] & after & Heq & Hid' & Hbefore).
        -- by injection Heq as -> _.
        -- injection Heq as -> _. by apply Forall_cons in Hbefore as [? _].
    + rewrite IH. split.
      * intros (before & after & -> & Hid' & Hbefore).
        exists (t :: before), after. repeat split; [done|]. by constructor.
      * intros ([|t' before] & after & Heq & Hid' & Hbefore).
        -- injection Heq as -> _. done.
        -- injection Heq as -> ->. apply Forall_cons in Hbefore as [_ Hbefore].
           by exists before, after.
Qed.

Lemma get_talent_by_id_None (load_talents : list GameData.Talent)
    (talent_id : string) :
  GameData.get_talent_by_id load_talents talent_id = None ↔
  Forall (λ other, GameData.id other ≠ talent_id) load_talents.
Proof.
  induction load_talents as [|t rest IH]; simpl.
  - split; [constructor|done].
  - case_bool_decide as Hid.
    + split; [done|]. by intros [? _]%Forall_cons.
    + rewrite IH, Forall_cons. tauto.
Qed.

(** X22: [get_talent_by_id] returns the first entry of the catalogue with
    the given id (later entries with the same id are never returned), and
    [None] exactly when no entry has that id, in which case [validate_talent]
    answers [False] for every path and skill list. *)
Theorem talent_lookup_is_first_match (load_talents : list GameData.Talent)
    (talent_id : string) :
  (∀ talent,
     GameData.get_talent_by_id load_talents talent_id = Some talent ↔
     ∃ before after,
       load_talents = before ++ talent :: after ∧
       GameData.id talent = talent_id ∧
       Forall (λ other, GameData.id other ≠ talent_id) before) ∧
  (GameData.get_talent_by_id load_talents talent_id = None ↔
     Forall (λ other, GameData.id other ≠ talent_id) load_talents) ∧
  (Forall (λ other, GameData.id other ≠ talent_id) load_talents →
     ∀ path_id skills,
       GameData.validate_talent load_talents talent_id path_id skills = false).
Proof.
  split; [intros talent; apply get_talent_by_id_Some|].
  split; [apply get_talent_by_id_None|].
  intros Hnone%get_talent_by_id_None path_id skills.
  unfold GameData.validate_talent. by rewrite Hnone.
Qed.

(** X23: a talent that [validate_talent] accepts for a path is the
    catalogue's first entry with that id, and [get_talents_for_path] lists it
    for that path; if it requires skills, the character has one of them. *)
Theorem valid_talent_is_listed_for_path (load_talents : list GameData.Talent)
    (talent_id path_id : string) (skills : list string) :
  GameData.validate_talent load_talents talent_id path_id skills = true →
  ∃ talent,
    GameData.get_talent_by_id load_talents talent_id = Some talent ∧
    GameData.id talent = talent_id ∧
    talent ∈ GameData.get_talents_for_path load_talents (Some path_id) ∧
    (GameData.skills (GameData.requirements talent) = [] ∨
     ∃ skill, skill ∈ GameData.skills (GameData.requirements talent) ∧
              skill ∈ skills).
Proof.
  unfold GameData.validate_talent.
  destruct (GameData.get_talent_by_id load_talents talent_id) as [talent|] eqn:E;
    [|done].
  cbn zeta. case_bool_decide as Hpath; [done|]. intros Hskills.
  exists talent. split; [done|].
  apply get_talent_by_id_Some in E as (before & after & -> & Hid & _).
  split; [done|]. split.
  - unfold GameData.get_talents_for_path. apply list_elem_of_filter. split.
    + destruct (GameData.path (GameData.requirements talent)) as [p|]; [|by right].
      left. f_equal. destruct (decide (p = path_id)) as [|Hne]; [done|].
      destruct Hpath. split; [done|]. by intros [= ->].
    + apply elem_of_app. right. by left.
  - destruct (GameData.skills (GameData.requirements talent)) as [|s ss] eqn:Es;
      [by left|].
    right. destruct (existsb _ (s :: ss)) eqn:Ex; [|done].
    apply existsb_exists in Ex as (skill & Hin & Hdec).
    exists skill. split; [by apply list_elem_of_In|].
    by apply bool_decide_eq_true_1 in Hdec.
Qed.

Lemma valid_talent_witness :
  ∃ talent,
    GameData.get_talent_by_id GameData.sample_talents "riposte" = Some talent ∧
    GameData.id talent = "riposte" ∧
    talent ∈ GameData.get_talents_for_path GameData.sample_talents (Some "blade") ∧
    (GameData.skills (GameData.requirements talent) = [] ∨
     ∃ skill, skill ∈ GameData.skills (GameData.requirements talent) ∧
              skill ∈ ["Blade"; "Brawl"; "Survival"]).
Proof.
  apply (valid_talent_is_listed_for_path GameData.sample_talents "riposte" "blade"
           ["Blade"; "Brawl"; "Survival"]).
  by vm_compute.
Defined.

Lemma filter_weaken_sublist {A : Type} (P Q : A → Prop)
    `{!∀ x, Decision (P x)} `{!∀ x, Decision (Q x)} (l : list A) :
  (∀ x, P x → Q x) → filter P l `sublist_of` filter Q l.
Proof.
  intros Himp. induction l as [|x l IH]; [constructor|].
  rewrite !filter_cons. destruct (decide (P x)) as [HP|HP].
  - rewrite decide_True by auto. by constructor.
  - destruct (decide (Q x)); [by constructor|done].
Qed.

(** X24: the talents listed for no path are those without a path
    requirement; they are listed, in catalogue order, for every path as well,
    and what is listed for a path is a part of the catalogue in catalogue
    order whose entries require that path or none. *)
Theorem talents_for_path_listing (load_talents : list GameData.Talent)
    (path_id : string) :
  GameData.get_talents_for_path load_talents None
    `sublist_of` GameData.get_talents_for_path load_talents (Some path_id) ∧
  GameData.get_talents_for_path load_talents (Some path_id)
    `sublist_of` load_talents ∧
  (∀ talent,
     talent ∈ GameData.get_talents_for_path load_talents (Some path_id) ↔
     talent ∈ load_talents ∧
     (GameData.path (GameData.requirements talent) = Some path_id ∨
      GameData.path (GameData.requirements talent) = None)) ∧
  (∀ talent,
     talent ∈ GameData.get_talents_for_path load_talents None ↔
     talent ∈ load_talents ∧ GameData.path (GameData.requirements talent) = None).
Proof.
  unfold GameData.get_talents_for_path.
  split; [apply filter_weaken_sublist; intros t Ht; by right|].
  split; [apply sublist_filter|].
  split; intros talent; rewrite list_elem_of_filter; tauto.
Qed.

(** ** The schema's attribute checks and the quick validator *)

(** X25: the schema's checks on the attributes (the range validator on
    each of the four scores and the total validator) all pass exactly when
    the rules engine's quick validator accepts the dictionary of the four
    scores. *)
Theorem schema_attribute_checks_match_quick_validator (a : AttributeScores.t) :
  let attributes_dict : gmap string Z :=
    {[ "might" := AttributeScores.might a;
       "agility" := AttributeScores.agility a;
       "wits" := AttributeScores.wits a;
       "presence" := AttributeScores.presence a ]} in
  (AttributeScores.validate_attribute_range (AttributeScores.might a)
     = Finished (AttributeScores.might a) ∧
   AttributeScores.validate_attribute_range (AttributeScores.agility a)
     = Finished (AttributeScores.agility a) ∧
   AttributeScores.validate_attribute_range (AttributeScores.wits a)
     = Finished (AttributeScores.wits a) ∧
   AttributeScores.validate_attribute_range (AttributeScores.presence a)
     = Finished (AttributeScores.presence a) ∧
   CharacterCreate.validate_attribute_total a = Finished a) ↔
  validate_attribute_allocation (PInt <$> attributes_dict) = true.
Proof.
  cbn zeta. rewrite allocation_true_iff, allocation_valid_ints.
  unfold attrs_in_range, required_attrs, attr_sum, score_ok.
  rewrite !Forall_cons, !lookup_total_alt.
  set (d := ({[ "might" := _; "agility" := _; "wits" := _; "presence" := _ ]}
             : gmap string Z)).
  assert (H1 : d !! "might" = Some (AttributeScores.might a)) by (by vm_compute).
  assert (H2 : d !! "agility" = Some (AttributeScores.agility a)) by (by vm_compute).
  assert (H3 : d !! "wits" = Some (AttributeScores.wits a)) by (by vm_compute).
  assert (H4 : d !! "presence" = Some (AttributeScores.presence a))
    by (by vm_compute).
  rewrite H1, H2, H3, H4. cbn [default from_option id].
  unfold AttributeScores.validate_attribute_range,
    CharacterCreate.validate_attribute_total, AttributeScores.total. cbn zeta.
  destruct a as [m g w p]. cbn [AttributeScores.might AttributeScores.agility
    AttributeScores.wits AttributeScores.presence].
  split.
  - intros (Hm & Hg & Hw & Hp & Hsum).
    destruct (Z.leb_spec 0 m), (Z.leb_spec m 20); try discriminate Hm.
    destruct (Z.leb_spec 0 g), (Z.leb_spec g 20); try discriminate Hg.
    destruct (Z.leb_spec 0 w), (Z.leb_spec w 20); try discriminate Hw.
    destruct (Z.leb_spec 0 p), (Z.leb_spec p 20); try discriminate Hp.
    destruct (Z.eqb_spec (m + g + w + p) 15); try discriminate Hsum.
    repeat split; first [lia | constructor].
  - intros ((Hm & Hg & Hw & Hp & _) & Hsum).
    rewrite Hsum. cbn [Z.eqb Pos.eqb negb].
    destruct (Z.leb_spec 0 m), (Z.leb_spec m 20); try lia.
    destruct (Z.leb_spec 0 g), (Z.leb_spec g 20); try lia.
    destruct (Z.leb_spec 0 w), (Z.leb_spec w 20); try lia.
    destruct (Z.leb_spec 0 p), (Z.leb_spec p 20); try lia.
    by repeat split.
Qed.
